(** * APK to AAB conversion scripts: a shallow embedding

    The repository holds four command-line scripts
    ([download_bundletool.py], [cert_manager.py], [apk_to_aab.py],
    [analyze_aab.py]).  Each is a short sequence of filesystem checks,
    calls of external programs and console output.  The scripts are
    embedded here as functions of a small monad that threads a world
    (the files on disk and the trace of observable effects) and that can
    block, since an external program called without a timeout may never
    return. *)

From Stdlib Require Import Ascii String.
From stdpp Require Import base decidable option list gmap strings pretty sorting.

Set Warnings "-register-all,-clear-no-such-hyp".

Open Scope string_scope.
Open Scope list_scope.

(** ** Python string and path operations *)

Module PyStr.

(** [str.replace(old, new)]: every non-overlapping occurrence of [old],
    scanned from the left, becomes [new].  [skip] counts the characters
    of an occurrence already consumed. *)
Fixpoint replace_from (skip : nat) (old new s : string) : string :=
  match s with
  | EmptyString => EmptyString
  | String c s' =>
      match skip with
      | S k => replace_from k old new s'
      | O =>
          if String.prefix old s
          then new +:+ replace_from (String.length old - 1) old new s'
          else String c (replace_from 0 old new s')
      end
  end.

Fixpoint intersperse_str (new s : string) : string :=
  match s with
  | EmptyString => EmptyString
  | String c s' => String c (new +:+ intersperse_str new s')
  end.

Definition replace (old new s : string) : string :=
  match old with
  | EmptyString => new +:+ intersperse_str new s
  | _ => replace_from 0 old new s
  end.

(** [str.split(sep)] for a one-character separator: never empty. *)
Fixpoint split (sep : ascii) (s : string) : list string :=
  match s with
  | EmptyString => [EmptyString]
  | String c s' =>
      if Ascii.eqb c sep then EmptyString :: split sep s'
      else match split sep s' with
           | h :: t => String c h :: t
           | [] => [String c EmptyString]
           end
  end.

(** [str.rfind(c)]: index of the last occurrence, [None] for -1. *)
Fixpoint rfind (c : ascii) (s : string) : option nat :=
  match s with
  | EmptyString => None
  | String a s' =>
      match rfind c s' with
      | Some i => Some (S i)
      | None => if Ascii.eqb a c then Some 0 else None
      end
  end.

(** [c in s] for a character. *)
Fixpoint contains (c : ascii) (s : string) : bool :=
  match s with
  | EmptyString => false
  | String a s' => Ascii.eqb a c || contains c s'
  end.

(** Ordering of [str] values: by code point, which on UTF-8 text is the
    ordering of the byte sequences. *)
Fixpoint leb (s t : string) : bool :=
  match s, t with
  | EmptyString, _ => true
  | String _ _, EmptyString => false
  | String a s', String b t' =>
      if (nat_of_ascii a <? nat_of_ascii b)%nat then true
      else if (nat_of_ascii b <? nat_of_ascii a)%nat then false
      else leb s' t'
  end.

(** [sorted(xs)] on strings (stable insertion sort; the order of equal
    strings cannot be observed). *)
Fixpoint insert_sorted (x : string) (xs : list string) : list string :=
  match xs with
  | [] => [x]
  | y :: ys => if leb x y then x :: y :: ys else y :: insert_sorted x ys
  end.

Fixpoint sorted (xs : list string) : list string :=
  match xs with
  | [] => []
  | x :: xs' => insert_sorted x (sorted xs')
  end.

End PyStr.

Module PyPath.

(** Components of a POSIX path as [pathlib] keeps them: empty components
    and [.] are dropped. *)
Definition parts (p : string) : list string :=
  filter (fun c => c <> EmptyString /\ c <> ".") (PyStr.split "/" p).

(** [Path.name]: the final component, empty when there is none. *)
Definition name (p : string) : string := List.last (parts p) EmptyString.

(** [Path.stem]: the name without its last suffix; a leading dot or a
    trailing dot does not start a suffix. *)
Definition stem (p : string) : string :=
  let n := name p in
  match PyStr.rfind "." n with
  | Some i =>
      if (0 <? i)%nat && (i <? String.length n - 1)%nat
      then String.substring 0 i n else n
  | None => n
  end.

(** [Path.parent] of a path in normal form. *)
Definition parent (p : string) : string :=
  match PyStr.rfind "/" p with
  | Some 0 => "/"
  | Some i => String.substring 0 i p
  | None => "."
  end.

(** [d / n] for a path [d] in normal form and a relative [n]: joining
    onto [.] gives [n] itself, joining nothing gives [d]. *)
Definition join (d n : string) : string :=
  if String.eqb n "" then d
  else if String.eqb d "." then n
  else if String.eqb d "/" then "/" +:+ n
  else d +:+ "/" +:+ n.

End PyPath.

(** ** The world the scripts run in *)

(** A file on disk is either a zip archive, given by its central
    directory (entry names in order, each with its payload), or any other
    byte content.  Every stored file is a readable regular file; the
    directories the scripts create with [mkdir(exist_ok=True)] are not
    stored. *)
Inductive fdata : Type :=
  | Blob (bytes : string)
  | Zip (entries : list (string * fdata)).

(** Exceptions the scripts catch; [str_exn] of the environment renders
    them the way [str(e)] does. *)
Inductive exn : Type :=
  | TimeoutExpired (argv : list string) (timeout : nat)
  | OSError (msg : string)
  | ZeroDivisionError.

(** What a started external program does when left alone. *)
Inductive behaviour : Type :=
  | Exits (elapsed : nat) (returncode : Z) (stdout stderr : string)
  | CannotStart (err : string)
  | RunsForever.

(** What [urlretrieve] meets: no response at all, or a response of
    announced size [total_size] read in [blocks] blocks of [block_size],
    which ends well ([failure = None], [content] is the whole body) or
    breaks off ([content] is what reached the disk). *)
Inductive fetched : Type :=
  | NoResponse (e : exn)
  | Response (block_size total_size : Z) (blocks : nat)
             (failure : option exn) (content : fdata).

Inductive zmode : Type := ZRead | ZWrite.

(** Observable effects, oldest first.  [Log f m] is one call of a
    script's [log_message]: the timestamped line goes to the console and
    is appended to log file [f] (the timestamp is left out). *)
Inductive event : Type :=
  | Print (line : string)
  | Log (logfile message : string)
  | System (cmd : string)
  | Run (argv : list string) (timeout : option nat)
  | UrlRetrieve (url dest : string)
  | ZipOpen (path : string) (mode : zmode).

Record world : Type := World {
  files : gmap string fdata;
  trace : list event
}.

(** Everything outside the scripts: the external programs, the network
    and the renderings done by the Python runtime. *)
Record environment : Type := Environment {
  (** wait status of [os.system cmd], [None] when it never returns *)
  shell : gmap string fdata -> string -> option Z;
  (** behaviour of the program started by [subprocess.run argv] *)
  program : gmap string fdata -> list string -> behaviour;
  (** result of [urllib.request.urlretrieve url] *)
  fetch : string -> fetched;
  (** exception raised when an archive cannot be opened for writing *)
  zip_write_error : gmap string fdata -> string -> option exn;
  (** keystore written by a successful [keytool -genkey] *)
  keystore_file : list string -> fdata;
  (** archive left in place by a successful [jarsigner] *)
  signed_file : fdata -> fdata;
  str_exn : exn -> string;
  (** [st_size / (1024 * 1024)] as [.2f], [st_size / 1024] as [.0f] *)
  size_mb_2f : fdata -> string;
  size_kb_0f : fdata -> string;
  (** [int((downloaded / total_size) * 100)] in floating point *)
  float_percent : Z -> Z -> Z;
  mtime_text : string -> string;
  mode_text : string -> string
}.

(** ** The monad of the scripts *)

Inductive result (A : Type) : Type :=
  | Done (a : A) (w : world)
  | Blocked (w : world).
Arguments Done {A} a w.
Arguments Blocked {A} w.

Definition M (A : Type) : Type := world -> result A.

Definition ret {A} (a : A) : M A := fun w => Done a w.

Definition bind {A B} (m : M A) (k : A -> M B) : M B :=
  fun w => match m w with
           | Done a w' => k a w'
           | Blocked w' => Blocked w'
           end.

Declare Scope script_scope.
Delimit Scope script_scope with script.
Notation "x <- m ;; k" := (bind m (fun x => k))
  (at level 100, m at next level, right associativity) : script_scope.
Notation "m ;; k" := (bind m (fun _ => k))
  (at level 100, right associativity) : script_scope.
Open Scope script_scope.

Definition emit (e : event) : M unit :=
  fun w => Done tt (World (files w) (trace w ++ [e])).

Definition emit_all (es : list event) : M unit :=
  fun w => Done tt (World (files w) (trace w ++ es)).

Definition print (line : string) : M unit := emit (Print line).

Definition path_exists (p : string) : M bool :=
  fun w => Done (bool_decide (is_Some (files w !! p))) w.

Definition read_file (p : string) : M (option fdata) :=
  fun w => Done (files w !! p) w.

Definition update_files (f : gmap string fdata -> gmap string fdata) : M unit :=
  fun w => Done tt (World (f (files w)) (trace w)).

(** [s * n] on strings. *)
Fixpoint str_mul (s : string) (n : nat) : string :=
  match n with
  | O => EmptyString
  | S k => s +:+ str_mul s k
  end.

Definition rule : string := Eval vm_compute in str_mul "=" 60.

Inductive run_result : Type :=
  | Completed (returncode : Z) (stdout stderr : string)
  | Raised (e : exn).

Section Primitives.
Context (env : environment).

(** [os.system(cmd)]: no timeout; blocks for as long as the command runs. *)
Definition os_system (cmd : string) : M Z :=
  fun w =>
    let w' := World (files w) (trace w ++ [System cmd]) in
    match shell env (files w) cmd with
    | Some status => Done status w'
    | None => Blocked w'
    end.

(** [subprocess.run(argv, capture_output=True, text=True, timeout=t)].
    With a timeout, a program still running when it expires is killed
    and [TimeoutExpired] is raised; without one the call waits.
    [effect] is what the program writes when it exits with status 0. *)
Definition subprocess_run (argv : list string) (timeout : option nat)
    (effect : gmap string fdata -> gmap string fdata) : M run_result :=
  fun w =>
    let w' := World (files w) (trace w ++ [Run argv timeout]) in
    let finish rc out err :=
      Done (Completed rc out err)
           (if bool_decide (rc = 0%Z)
            then World (effect (files w)) (trace w') else w') in
    match program env (files w) argv, timeout with
    | CannotStart err, _ => Done (Raised (OSError err)) w'
    | Exits t rc out err, Some limit =>
        if (limit <? t)%nat
        then Done (Raised (TimeoutExpired argv limit)) w'
        else finish rc out err
    | Exits t rc out err, None => finish rc out err
    | RunsForever, Some limit => Done (Raised (TimeoutExpired argv limit)) w'
    | RunsForever, None => Blocked w'
    end.

(** [zipfile.ZipFile(path, 'w', ZIP_DEFLATED)] followed by the writes of
    [entries] and the close: the archive replaces whatever was at
    [path].  [Some e] when opening raised [e]. *)
Definition zip_create (path : string) (entries : list (string * fdata))
    : M (option exn) :=
  fun w =>
    let w' := World (files w) (trace w ++ [ZipOpen path ZWrite]) in
    match zip_write_error env (files w) path with
    | Some e => Done (Some e) w'
    | None => Done None (World (<[path := Zip entries]> (files w)) (trace w'))
    end.

(** [zipfile.ZipFile(path, 'r')] and [namelist()] on an existing file:
    [None] stands for [BadZipFile]. *)
Definition zip_namelist (path : string) : M (option (list string)) :=
  fun w =>
    let w' := World (files w) (trace w ++ [ZipOpen path ZRead]) in
    match files w !! path with
    | Some (Zip entries) => Done (Some (map fst entries)) w'
    | _ => Done None w'
    end.

End Primitives.

(** ** download_bundletool.py *)

Module Fetcher.

Definition BUNDLETOOL_VERSION : string := "1.15.6".
Definition BUNDLETOOL_URL : string :=
  "https://github.com/google/bundletool/releases/download/" +:+ BUNDLETOOL_VERSION
  +:+ "/bundletool-all-" +:+ BUNDLETOOL_VERSION +:+ ".jar".

Section Script.
Context (env : environment) (script_dir : string).

Definition TOOLS_DIR : string := PyPath.join script_dir "tools".
Definition BUNDLETOOL_JAR : string := PyPath.join TOOLS_DIR "bundletool.jar".

Definition LOG_DIR : string := PyPath.join script_dir "logs".
Definition log_file : string := PyPath.join LOG_DIR "setup.log".

Definition log_message (message : string) : M unit :=
  emit (Log log_file message).

(** The nested [progress_hook], called once before the first block and
    once after each block read. *)
Definition progress_hook (block_num block_size total_size : Z) : event :=
  let downloaded := (block_num * block_size)%Z in
  let percent := Z.min 100 (float_percent env downloaded total_size) in
  Print (String (ascii_of_nat 13) "  Progress: " +:+ pretty percent +:+ "%").

(** [urllib.request.urlretrieve(url, dest, progress_hook)]: the
    destination is opened before the first report, so a hook that raises
    (division by an announced size of 0) leaves an empty file behind. *)
Definition urlretrieve (url dest : string) : M (option exn) :=
  emit (UrlRetrieve url dest) ;;
  match fetch env url with
  | NoResponse e => ret (Some e)
  | Response block_size total_size blocks failure content =>
      if bool_decide (total_size = 0%Z)
      then update_files (insert dest (Blob "")) ;;
           ret (Some ZeroDivisionError)
      else emit_all (map (fun k => progress_hook (Z.of_nat k) block_size total_size)
                         (seq 0 (S blocks))) ;;
           update_files (insert dest content) ;;
           ret failure
  end.

Definition download_bundletool : M bool :=
  e <- path_exists BUNDLETOOL_JAR ;;
  if e then
    log_message ("✓ Bundletool already exists at " +:+ BUNDLETOOL_JAR) ;;
    ret true
  else
    log_message ("📥 Downloading bundletool " +:+ BUNDLETOOL_VERSION +:+ "...") ;;
    r <- urlretrieve BUNDLETOOL_URL BUNDLETOOL_JAR ;;
    match r with
    | None =>
        print "" ;;
        log_message ("✓ Downloaded bundletool to " +:+ BUNDLETOOL_JAR) ;;
        ret true
    | Some e =>
        log_message ("✗ Failed to download bundletool: " +:+ str_exn env e) ;;
        ret false
    end.

Definition check_java : M bool :=
  r <- os_system env "java -version > /dev/null 2>&1" ;;
  if bool_decide (r = 0%Z) then
    log_message "✓ Java is installed" ;; ret true
  else
    log_message "✗ Java is NOT installed. Install Java 11+ to proceed." ;;
    ret false.

(** [main]: the value is the exit status of the process. *)
Definition main : M Z :=
  log_message rule ;;
  log_message "APK to AAB Conversion - Setup" ;;
  log_message rule ;;
  j <- check_java ;;
  if negb j then ret 1%Z else
  d <- download_bundletool ;;
  if negb d then ret 1%Z else
  log_message rule ;;
  log_message "✓ Setup completed successfully!" ;;
  log_message rule ;;
  ret 0%Z.

End Script.
End Fetcher.

(** ** cert_manager.py *)

Module CertManager.

Section Script.
Context (env : environment) (script_dir : string).

Definition CERTS_DIR : string := PyPath.join script_dir "certs".

Definition LOG_DIR : string := PyPath.join script_dir "logs".
Definition log_file : string := PyPath.join LOG_DIR "cert.log".

Definition log_message (message : string) : M unit :=
  emit (Log log_file message).

Definition genkey_cmd (keystore_path keystore_pass alias alias_pass : string)
    (validity_days : Z) : list string :=
  [ "keytool"; "-genkey"; "-v";
    "-keystore"; keystore_path;
    "-keyalg"; "RSA";
    "-keysize"; "2048";
    "-validity"; pretty validity_days;
    "-alias"; alias;
    "-storepass"; keystore_pass;
    "-keypass"; alias_pass;
    "-dname"; "CN=IoT Marketplace App, O=Your Company, L=Your City, ST=Your State, C=US" ].

(** [keytool -genkey] that exits with status 0 has written the keystore. *)
Definition create_keystore (keystore_path keystore_pass alias alias_pass : string)
    (validity_days : Z) : M bool :=
  e <- path_exists keystore_path ;;
  if e then
    log_message ("✓ Keystore already exists at " +:+ keystore_path) ;;
    ret true
  else
    log_message ("🔐 Creating keystore: " +:+ keystore_path) ;;
    let cmd := genkey_cmd keystore_path keystore_pass alias alias_pass validity_days in
    r <- subprocess_run env cmd (Some 30)
           (insert keystore_path (keystore_file env cmd)) ;;
    match r with
    | Completed rc _ stderr =>
        if bool_decide (rc = 0%Z) then
          log_message "✓ Keystore created successfully" ;;
          log_message ("  Location: " +:+ keystore_path) ;;
          log_message ("  Alias: " +:+ alias) ;;
          ret true
        else
          log_message ("✗ Keystore creation failed: " +:+ stderr) ;;
          ret false
    | Raised e =>
        log_message ("✗ Error creating keystore: " +:+ str_exn env e) ;;
        ret false
    end.

Definition default_validity_days : Z := 25550.

Definition list_cmd (keystore_path keystore_pass : string) : list string :=
  [ "keytool"; "-list"; "-v"; "-keystore"; keystore_path; "-storepass"; keystore_pass ].

Definition list_keystore_info (keystore_path keystore_pass : string) : M bool :=
  r <- subprocess_run env (list_cmd keystore_path keystore_pass) None id ;;
  match r with
  | Completed rc stdout stderr =>
      if bool_decide (rc = 0%Z) then
        log_message "🔍 Keystore Information:" ;;
        print stdout ;;
        ret true
      else
        log_message ("✗ Failed to read keystore: " +:+ stderr) ;;
        ret false
  | Raised e =>
      log_message ("✗ Error reading keystore: " +:+ str_exn env e) ;;
      ret false
  end.



Definition main : M Z :=
  log_message rule ;;
  log_message "Certificate Manager" ;;
  log_message rule ;;
  let keystore_path := PyPath.join CERTS_DIR "iot_marketplace_app.keystore" in
  let keystore_pass := "iot_app_12345" in
  let alias := "iot_marketplace" in
  let alias_pass := "iot_app_12345" in
  e <- path_exists keystore_path ;;
  created <-
    (if negb e then
       c <- create_keystore keystore_path keystore_pass alias alias_pass
              default_validity_days ;;
       if c then log_message "✓ Keystore setup completed" ;; ret true
       else ret false
     else ret true) ;;
  if negb created then ret 1%Z else
  list_keystore_info keystore_path keystore_pass ;;
  log_message rule ;;
  ret 0%Z.

End Script.
End CertManager.

(** ** apk_to_aab.py *)

Module Converter.

(** The attributes set by [APKtoAABConverter.__init__]. *)
Record APKtoAABConverter : Type := {
  base_dir : string;
  tools_dir : string;
  certs_dir : string;
  output_dir : string;
  logs_dir : string;
  bundletool_jar : string;
  keystore_path : string;
  keystore_pass : string;
  key_alias : string;
  key_pass : string
}.

Definition init (script_dir : string) : APKtoAABConverter :=
  let tools := PyPath.join script_dir "tools" in
  let certs := PyPath.join script_dir "certs" in
  {| base_dir := script_dir;
     tools_dir := tools;
     certs_dir := certs;
     output_dir := PyPath.join script_dir "output";
     logs_dir := PyPath.join script_dir "logs";
     bundletool_jar := PyPath.join tools "bundletool.jar";
     keystore_path := PyPath.join certs "iot_marketplace_app.keystore";
     keystore_pass := "iot_app_12345";
     key_alias := "iot_marketplace";
     key_pass := "iot_app_12345" |}.

(** [str(bundle_config)] of the dictionary literal. *)
Definition bundle_config_text : string :=
  "{'version': 1, 'modules': [{'name': 'base', 'enabled': True, 'type': 'ASSET_PACK'}]}".

(** The archive members written by [convert_apk_to_aab], in order. *)
Definition bundle_entries (apk : fdata) : list (string * fdata) :=
  [ ("base/universal.apk", apk); ("BundleConfig.pb", Blob bundle_config_text) ].

(** The name logged as signed output. *)
Definition signed_name (name : string) : string :=
  PyStr.replace ".aab" "-signed.aab" name.

Definition signed_aab_path (aab_path : string) : string :=
  PyPath.join (PyPath.parent aab_path) (signed_name (PyPath.name aab_path)).

(** The output path chosen by [process_apk]. *)
Definition output_name (apk_path : string) : string :=
  PyStr.replace " " "_" (PyPath.stem apk_path) +:+ ".aab".

(** Truth value of what [sign_aab] returns: a string or [False]. *)
Definition truthy (r : option string) : bool :=
  match r with
  | Some s => negb (String.eqb s "")
  | None => false
  end.

Section Script.
Context (env : environment) (self : APKtoAABConverter).

Definition log_file : string := PyPath.join (logs_dir self) "conversion.log".

Definition log_message (message : string) : M unit :=
  emit (Log log_file message).

Definition check_requirements : M bool :=
  log_message "🔍 Checking requirements..." ;;
  r <- os_system env "java -version > /dev/null 2>&1" ;;
  if negb (bool_decide (r = 0%Z)) then
    log_message "✗ Java is NOT installed" ;; ret false
  else
  log_message "✓ Java is installed" ;;
  b <- path_exists (bundletool_jar self) ;;
  if negb b then
    log_message ("✗ Bundletool not found at " +:+ bundletool_jar self) ;; ret false
  else
  log_message "✓ Bundletool found" ;;
  k <- path_exists (keystore_path self) ;;
  if negb k then
    log_message ("✗ Keystore not found at " +:+ keystore_path self) ;; ret false
  else
  log_message "✓ Keystore found" ;;
  ret true.

(** The temporary directory is fresh and removed when the [with] block
    is left, so the copy of the APK and the config file live in local
    values. *)
Definition convert_apk_to_aab (apk_path output_aab_path : string) : M bool :=
  src <- read_file apk_path ;;
  match src with
  | None =>
      log_message ("✗ APK file not found: " +:+ apk_path) ;; ret false
  | Some apk =>
      log_message "📦 Converting APK to AAB..." ;;
      log_message ("  Input: " +:+ apk_path) ;;
      log_message ("  Output: " +:+ output_aab_path) ;;
      log_message "  [1/3] Preparing APK module..." ;;
      log_message "  ✓ Module prepared" ;;
      log_message "  [2/3] Building AAB..." ;;
      z <- zip_create env output_aab_path (bundle_entries apk) ;;
      match z with
      | Some e =>
          log_message ("✗ AAB creation failed: " +:+ str_exn env e) ;; ret false
      | None =>
          log_message "  ✓ AAB structure created" ;;
          out <- read_file output_aab_path ;;
          match out with
          | None => log_message "✗ AAB file was not created" ;; ret false
          | Some aab =>
              log_message ("  ✓ AAB created successfully (" +:+ size_mb_2f env aab
                           +:+ " MB)") ;;
              ret true
          end
      end
  end.

Definition sign_cmd (aab_path : string) : list string :=
  [ "jarsigner"; "-verbose";
    "-sigalg"; "SHA256withRSA";
    "-digestalg"; "SHA-256";
    "-keystore"; keystore_path self;
    "-storepass"; keystore_pass self;
    "-keypass"; key_pass self;
    aab_path;
    key_alias self ].

(** [jarsigner] signs in place: when it exits with status 0 the archive
    at [aab_path] is the signed one, otherwise it is untouched. *)
Definition sign_aab (aab_path : string) : M (option string) :=
  let signed := signed_aab_path aab_path in
  log_message "🔐 Signing AAB..." ;;
  log_message ("  Input: " +:+ aab_path) ;;
  log_message ("  Output: " +:+ signed) ;;
  r <- subprocess_run env (sign_cmd aab_path) (Some 120)
         (alter (signed_file env) aab_path) ;;
  match r with
  | Completed rc _ stderr =>
      if negb (bool_decide (rc = 0%Z)) then
        log_message ("✗ Signing failed: " +:+ stderr) ;; ret None
      else
        log_message "  ✓ AAB signed successfully" ;; ret (Some signed)
  | Raised e =>
      log_message ("✗ Signing failed: " +:+ str_exn env e) ;; ret None
  end.

Definition info_cmd (aab_path : string) : list string :=
  [ "java"; "-jar"; bundletool_jar self; "dump"; "manifest"; "--bundle"; aab_path ].

Definition get_bundle_info (aab_path : string) : M bool :=
  e <- path_exists aab_path ;;
  if negb e then
    log_message ("✗ AAB file not found: " +:+ aab_path) ;; ret false
  else
  log_message "📋 AAB Information:" ;;
  r <- subprocess_run env (info_cmd aab_path) (Some 30) id ;;
  match r with
  | Completed rc stdout stderr =>
      (if bool_decide (rc = 0%Z) then log_message ("  " +:+ stdout)
       else log_message ("  Could not read manifest: " +:+ stderr)) ;;
      ret true
  | Raised e =>
      log_message ("✗ Failed to get info: " +:+ str_exn env e) ;; ret false
  end.

Definition process_apk (apk_path : string) (sign : bool) : M bool :=
  log_message rule ;;
  log_message "APK to AAB Conversion" ;;
  log_message rule ;;
  ok <- check_requirements ;;
  if negb ok then ret false else
  let output_aab := PyPath.join (output_dir self) (output_name apk_path) in
  built <- convert_apk_to_aab apk_path output_aab ;;
  if negb built then ret false else
  (if sign then
     s <- sign_aab output_aab ;;
     if negb (truthy s) then log_message "⚠ AAB created but signing failed"
     else ret tt
   else ret tt) ;;
  get_bundle_info output_aab ;;
  log_message rule ;;
  log_message "✓ Conversion completed!" ;;
  log_message ("  Output: " +:+ output_aab) ;;
  log_message rule ;;
  ret true.

End Script.

Section Main.
Context (env : environment) (script_dir : string).

(** [main] over [sys.argv]; the value is the exit status. *)
Definition main (argv : list string) : M Z :=
  match argv with
  | _ :: apk_file :: _ =>
      let sign := negb (bool_decide ("--no-sign" ∈ argv)) in
      let converter := init script_dir in
      ok <- process_apk env converter apk_file sign ;;
      if negb ok then ret 1%Z else ret 0%Z
  | _ =>
      print "Usage: python apk_to_aab.py <path_to_apk> [--no-sign]" ;;
      print (String (ascii_of_nat 10) "Example: python apk_to_aab.py ../iot-marketplace-app.apk") ;;
      ret 1%Z
  end.

End Main.
End Converter.

(** ** analyze_aab.py *)

Module Analyzer.

(** [modules] is a [dict] from module name to the list of its files, kept
    as an association list in insertion order. *)
Definition dict : Type := list (string * list string).

Fixpoint dict_get (modules : dict) (module : string) : list string :=
  match modules with
  | [] => []
  | (k, v) :: rest => if String.eqb k module then v else dict_get rest module
  end.

(** [if module not in modules: modules[module] = []] followed by
    [modules[module].append(file)]. *)
Fixpoint dict_append (modules : dict) (module file : string) : dict :=
  match modules with
  | [] => [(module, [file])]
  | (k, v) :: rest =>
      if String.eqb k module then (k, (v ++ [file])%list) :: rest
      else (k, v) :: dict_append rest module file
  end.

Definition keys (modules : dict) : list string := map fst modules.

(** [file.split('/')[0]]. *)
Definition module_of (file : string) : string :=
  match PyStr.split "/" file with
  | module :: _ => module
  | [] => EmptyString
  end.

(** The grouping loop over [files]. *)
Definition group_step (modules : dict) (file : string) : dict :=
  match PyStr.split "/" file with
  | module :: _ => dict_append modules module file
  | [] => modules
  end.

Definition group_by_module (files : list string) : dict :=
  fold_left group_step files [].

Definition nl : string := String (ascii_of_nat 10) EmptyString.

Definition example_line (file : string) : event :=
  Print ("  │  ├─ " +:+ file).

Definition more_line (n : nat) : event :=
  Print ("  │  └─ ... and " +:+ pretty n +:+ " more").

(** What the body of the loop over the sorted module names prints. *)
Definition module_lines (modules : dict) (module : string) : list event :=
  let files := dict_get modules module in
  Print ("  ├─ " +:+ module +:+ "/")
  :: (map example_line (take 5 (PyStr.sorted files))
      ++ (if (5 <? length files)%nat then [more_line (length files - 5)] else []))%list.

Definition contents_line (n : nat) : event :=
  Print (nl +:+ "📂 Archive Contents (" +:+ pretty n +:+ " files):").

(** The loop over [sorted(modules.keys())]. *)
Definition module_report (modules : dict) : list event :=
  concat (map (module_lines modules) (PyStr.sorted (keys modules))).

Definition valid_line : event := Print (nl +:+ "✓ AAB file is valid").

Definition not_found_line (aab_path : string) : event :=
  Print ("✗ AAB file not found: " +:+ aab_path).

Definition bad_zip_line : event :=
  Print "✗ AAB file is not a valid ZIP archive".

Section Script.
Context (env : environment).

(** The banner and the [stat] lines printed before the archive is
    opened. *)
Definition file_details (aab_path : string) (data : fdata) : list event :=
  [ Print rule;
    Print ("AAB File Information: " +:+ PyPath.name aab_path);
    Print rule;
    Print (nl +:+ "📦 File Details:");
    Print ("  Size: " +:+ size_mb_2f env data +:+ " MB ("
           +:+ size_kb_0f env data +:+ " KB)");
    Print ("  Modified: " +:+ mtime_text env aab_path);
    Print ("  Permissions: " +:+ mode_text env aab_path) ].

(** Every stored file can be read, so opening it as an archive raises
    nothing but [BadZipFile]; the handler for other exceptions has no
    case here. *)
Definition analyze_aab (aab_path : string) : M bool :=
  src <- read_file aab_path ;;
  match src with
  | None => emit (not_found_line aab_path) ;; ret false
  | Some data =>
      emit_all (file_details aab_path data) ;;
      z <- zip_namelist aab_path ;;
      match z with
      | Some files =>
          emit (contents_line (length files)) ;;
          emit_all (module_report (group_by_module files)) ;;
          emit valid_line ;;
          ret true
      | None => emit bad_zip_line ;; ret false
      end
  end.

Definition main (argv : list string) : M Z :=
  match argv with
  | _ :: aab_file :: _ =>
      ok <- analyze_aab aab_file ;;
      if negb ok then ret 1%Z else ret 0%Z
  | _ =>
      print "Usage: python analyze_aab.py <path_to_aab>" ;;
      print (nl +:+ "Example: python analyze_aab.py output/iot-marketplace-app.aab") ;;
      ret 1%Z
  end.

End Script.
End Analyzer.

(** ** Counting effects in a trace *)

Definition is_fetch (e : event) : bool :=
  match e with UrlRetrieve _ _ => true | _ => false end.

Definition is_genkey (e : event) : bool :=
  match e with
  | Run ("keytool" :: "-genkey" :: _) _ => true
  | _ => false
  end.

Definition is_zip_open (e : event) : bool :=
  match e with ZipOpen _ _ => true | _ => false end.

Definition count (p : event -> bool) (t : list event) : nat :=
  length (List.filter p t).

Definition network_requests : list event -> nat := count is_fetch.
Definition genkey_runs : list event -> nat := count is_genkey.
Definition zip_opens : list event -> nat := count is_zip_open.

(** [n] calls of [create_keystore] in a row with the same arguments; the
    value is that of the last call. *)
Fixpoint create_keystore_times (env : environment) (script_dir : string)
    (keystore_path keystore_pass alias alias_pass : string) (validity_days : Z)
    (n : nat) : M bool :=
  match n with
  | O => ret true
  | S k =>
      b <- CertManager.create_keystore env script_dir keystore_path keystore_pass
             alias alias_pass validity_days ;;
      match k with
      | O => ret b
      | S _ => create_keystore_times env script_dir keystore_path keystore_pass
                 alias alias_pass validity_days k
      end
  end.

(** ** The requirement check as the specification words it *)

Inductive requirement : Type := JavaInvocable | BundletoolPresent | KeystorePresent.

(** The order in which the prerequisites are to be tested. *)
Definition requirement_order : list requirement :=
  [JavaInvocable; BundletoolPresent; KeystorePresent].

Definition java_check : string := "java -version > /dev/null 2>&1".

Definition requirement_met (env : environment) (self : Converter.APKtoAABConverter)
    (fs : gmap string fdata) (r : requirement) : bool :=
  match r with
  | JavaInvocable => bool_decide (shell env fs java_check = Some 0%Z)
  | BundletoolPresent => bool_decide (is_Some (fs !! Converter.bundletool_jar self))
  | KeystorePresent => bool_decide (is_Some (fs !! Converter.keystore_path self))
  end.

Definition first_failing (env : environment) (self : Converter.APKtoAABConverter)
    (fs : gmap string fdata) : option requirement :=
  List.find (fun r => negb (requirement_met env self fs r)) requirement_order.

(** The reason reported for each failing prerequisite. *)
Definition failure_reason (self : Converter.APKtoAABConverter) (r : requirement)
    : string :=
  match r with
  | JavaInvocable => "✗ Java is NOT installed"
  | BundletoolPresent => "✗ Bundletool not found at " +:+ Converter.bundletool_jar self
  | KeystorePresent => "✗ Keystore not found at " +:+ Converter.keystore_path self
  end.

(** ** Notions used to state the properties *)

(** Where the files stand after a call of [subprocess.run]. *)
Definition files_after (r : run_result)
    (effect : gmap string fdata -> gmap string fdata)
    (fs : gmap string fdata) : gmap string fdata :=
  match r with
  | Completed rc _ _ => if bool_decide (rc = 0%Z) then effect fs else fs
  | Raised _ => fs
  end.

(** The three banner lines that open [process_apk]. *)
Definition banner (self : Converter.APKtoAABConverter) : list event :=
  [ Log (Converter.log_file self) rule;
    Log (Converter.log_file self) "APK to AAB Conversion";
    Log (Converter.log_file self) rule ].

(** Replacing a one-character [old] by a one-character [new] maps the
    characters of the string one by one. *)
Fixpoint map_chars (f : ascii -> ascii) (s : string) : string :=
  match s with
  | EmptyString => EmptyString
  | String c s' => String (f c) (map_chars f s')
  end.

Definition underscore_for_space (c : ascii) : ascii :=
  if Ascii.eqb c " " then "_"%char else c.

(** An invocation made with a fixed timeout of 30 to 120 seconds. *)
Definition has_fixed_timeout (e : event) : Prop :=
  match e with
  | Run _ (Some t) => 30 <= t <= 120
  | Run _ None => False
  | System _ => False
  | _ => True
  end.

(** The program is still running when [limit] seconds have passed. *)
Definition exceeds (b : behaviour) (limit : nat) : Prop :=
  match b with
  | Exits t _ _ _ => limit < t
  | RunsForever => True
  | CannotStart _ => False
  end.

(** What the claim asks of a run of a script function: it comes back,
    and every program it started had a fixed timeout in range. *)
Definition bounded_run {A} (r : result A) : Prop :=
  exists a w', r = Done a w' /\ Forall has_fixed_timeout (trace w').

(** Starts of external programs, of whatever kind. *)
Definition is_run (e : event) : bool :=
  match e with Run _ _ => true | _ => false end.

Definition is_jarsigner (e : event) : bool :=
  match e with
  | Run ("jarsigner" :: _) _ => true
  | _ => false
  end.

(** Anything that reaches outside the process: a program, a shell
    command, the network or an archive. *)
Definition is_external (e : event) : bool :=
  match e with
  | Print _ | Log _ _ => false
  | _ => true
  end.

Definition program_runs : list event -> nat := count is_run.
Definition jarsigner_runs : list event -> nat := count is_jarsigner.
Definition external_effects : list event -> nat := count is_external.

(** [old] does not occur in [s], at any position. *)
Fixpoint no_occurrence (old s : string) : Prop :=
  match s with
  | EmptyString => True
  | String _ s' => String.prefix old s = false /\ no_occurrence old s'
  end.

(** Two states of the disk agree everywhere but at [p]. *)
Definition same_but (p : string) (fs fs' : gmap string fdata) : Prop :=
  forall q, q <> p -> fs' !! q = fs !! q.

(** The module names in the order the analyzer prints them. *)
Definition printed_modules (names : list string) : list string :=
  PyStr.sorted (Analyzer.keys (Analyzer.group_by_module names)).

(** ** A concrete environment for running the scripts *)

Module Demo.

Definition render (e : exn) : string :=
  match e with
  | TimeoutExpired _ t => "timed out after " +:+ pretty t +:+ " seconds"
  | OSError msg => msg
  | ZeroDivisionError => "division by zero"
  end.

(** Java answers with [java]; every program started behaves as [tool];
    the network answers with [net]. *)
Definition env (java : option Z) (tool : behaviour) (net : fetched) : environment :=
  {| shell := fun _ _ => java;
     program := fun _ _ => tool;
     fetch := fun _ => net;
     zip_write_error := fun _ _ => None;
     keystore_file := fun _ => Blob "keystore";
     signed_file := fun d =>
       match d with
       | Zip es => Zip (es ++ [("META-INF/MANIFEST.MF", Blob "signed")])
       | Blob b => Blob b
       end;
     str_exn := render;
     size_mb_2f := fun _ => "0.00";
     size_kb_0f := fun _ => "0";
     float_percent := fun d t => (d * 100 / t)%Z;
     mtime_text := fun _ => "2024-01-01 00:00:00";
     mode_text := fun _ => "644" |}.

Definition ok : behaviour := Exits 1 0 "out" "".
Definition failing : behaviour := Exits 1 1 "" "jarsigner: unable to sign jar".
Definition offline : fetched := NoResponse (OSError "no route to host").

Definition disk (l : list (string * fdata)) : world :=
  World (list_to_map l) [].

End Demo.

(** ** The Python operations on small inputs *)

Example replace_spaces : PyStr.replace " " "_" "my demo app" = "my_demo_app".
Proof. reflexivity. Qed.

Example replace_all_occurrences :
  PyStr.replace ".aab" "-signed.aab" "x.aab.aab" = "x-signed.aab-signed.aab".
Proof. reflexivity. Qed.

Example replace_empty_old : PyStr.replace "" "-" "abc" = "-a-b-c-".
Proof. reflexivity. Qed.

Example stem_demo : PyPath.stem "/tmp/in dir/demo app.apk" = "demo app".
Proof. vm_compute. reflexivity. Qed.

Example stem_hidden : PyPath.stem ".bashrc" = ".bashrc".
Proof. vm_compute. reflexivity. Qed.

Example stem_two_suffixes : PyPath.stem "x.aab.apk" = "x.aab".
Proof. vm_compute. reflexivity. Qed.

Example sorted_by_code_point :
  PyStr.sorted ["base"; "BundleConfig.pb"; "META-INF"] =
  ["BundleConfig.pb"; "META-INF"; "base"].
Proof. reflexivity. Qed.

Example utf8_literal : String.length "✗" = 3.
Proof. reflexivity. Qed.

Example group_converter_output :
  Analyzer.group_by_module ["base/universal.apk"; "BundleConfig.pb"; "base/x"] =
  [("base", ["base/universal.apk"; "base/x"]); ("BundleConfig.pb", ["BundleConfig.pb"])].
Proof. reflexivity. Qed.

(** ** Basic facts about the monad and the primitives *)

Lemma bind_Done {A B} (m : M A) (k : A -> M B) (w w' : world) (b : B) :
  bind m k w = Done b w' ->
  exists a w1, m w = Done a w1 /\ k a w1 = Done b w'.
Proof.
  unfold bind. destruct (m w) as [a w1|w1]; [|discriminate].
  intros H. by exists a, w1.
Qed.

Lemma bind_step {A B} (m : M A) (k : A -> M B) (w w1 : world) (a : A) :
  m w = Done a w1 -> bind m k w = k a w1.
Proof. unfold bind. by intros ->. Qed.

Lemma count_app (p : event -> bool) (s t : list event) :
  count p (s ++ t) = count p s + count p t.
Proof. unfold count. by rewrite List.filter_app, length_app. Qed.

Lemma path_exists_Some (p : string) (w : world) :
  is_Some (files w !! p) -> path_exists p w = Done true w.
Proof. intros H. unfold path_exists. by rewrite bool_decide_eq_true_2. Qed.

Lemma path_exists_None (p : string) (w : world) :
  files w !! p = None -> path_exists p w = Done false w.
Proof.
  intros H. unfold path_exists. rewrite bool_decide_eq_false_2; [done|].
  rewrite H. by intros [? ?].
Qed.

(** A call with a timeout always comes back. *)
Lemma subprocess_run_returns (env : environment) (argv : list string)
    (limit : nat) (effect : gmap string fdata -> gmap string fdata) (w : world) :
  exists r, subprocess_run env argv (Some limit) effect w
            = Done r (World (files_after r effect (files w))
                            (trace w ++ [Run argv (Some limit)])).
Proof.
  unfold subprocess_run.
  destruct (program env (files w) argv) as [t rc out err|err|]; simpl.
  - destruct (limit <? t)%nat.
    + by eexists (Raised _).
    + exists (Completed rc out err). simpl. by case_bool_decide.
  - by eexists (Raised _).
  - by eexists (Raised _).
Qed.

Ltac tidy := repeat progress (simpl; rewrite <- ?(assoc_L (++))).

Ltac count_events :=
  unfold network_requests, genkey_runs, zip_opens;
  rewrite ?count_app; unfold count; simpl; lia.

(** ** The fetcher *)

Lemma download_bundletool_present (env : environment) (dir : string) (w : world) :
  is_Some (files w !! Fetcher.BUNDLETOOL_JAR dir) ->
  Fetcher.download_bundletool env dir w
  = Done true (World (files w)
                 (trace w ++ [Log (Fetcher.log_file dir)
                    ("✓ Bundletool already exists at " +:+ Fetcher.BUNDLETOOL_JAR dir)])).
Proof.
  intros H. unfold Fetcher.download_bundletool.
  rewrite (bind_step _ _ _ _ _ (path_exists_Some _ _ H)). reflexivity.
Qed.

(** A successful download leaves the jar at its target path. *)
Lemma download_bundletool_success (env : environment) (dir : string) (w w1 : world) :
  Fetcher.download_bundletool env dir w = Done true w1 ->
  is_Some (files w1 !! Fetcher.BUNDLETOOL_JAR dir).
Proof.
  unfold Fetcher.download_bundletool, path_exists, bind at 1.
  case_bool_decide as Hjar.
  - intros [= <-]. exact Hjar.
  - unfold Fetcher.urlretrieve, Fetcher.log_message, emit, emit_all, update_files,
      print, emit, bind, ret.
    destruct (fetch env Fetcher.BUNDLETOOL_URL) as [e|bs ts n failure content]; simpl.
    + discriminate.
    + case_bool_decide; simpl; [discriminate|].
      destruct failure; simpl; [discriminate|].
      intros [= <-]. simpl. rewrite lookup_insert_eq. eauto.
Qed.

(** C5. Whenever the bundletool jar is already at its target path (in any
    state, and so in the state left by an earlier successful call),
    [download_bundletool] reports success, leaves the files alone and adds
    no network request to the trace. *)
Theorem fetcher_idempotent (env : environment) (dir : string) (w : world)
    (Hjar : is_Some (files w !! Fetcher.BUNDLETOOL_JAR dir)
            \/ exists w0, Fetcher.download_bundletool env dir w0 = Done true w) :
  exists w', Fetcher.download_bundletool env dir w = Done true w'
    /\ files w' = files w
    /\ network_requests (trace w') = network_requests (trace w)
    /\ Fetcher.download_bundletool env dir w' = Done true
         (World (files w') (trace w' ++ [Log (Fetcher.log_file dir)
            ("✓ Bundletool already exists at " +:+ Fetcher.BUNDLETOOL_JAR dir)])).
Proof.
  assert (Hex : is_Some (files w !! Fetcher.BUNDLETOOL_JAR dir)).
  { destruct Hjar as [H|[w0 H]]; [exact H|].
    by apply download_bundletool_success in H. }
  eexists. split; [by apply download_bundletool_present|].
  simpl. split; [done|]. split.
  - unfold network_requests. rewrite count_app. unfold count. simpl. lia.
  - by apply download_bundletool_present.
Qed.

Lemma fetcher_idempotent_witness :
  let w := Demo.disk [("tools/bundletool.jar", Blob "jar")] in
  exists w', Fetcher.download_bundletool (Demo.env (Some 0%Z) Demo.ok Demo.offline) "." w
             = Done true w'
    /\ files w' = files w
    /\ network_requests (trace w') = 0.
Proof.
  intros w.
  destruct (fetcher_idempotent (Demo.env (Some 0%Z) Demo.ok Demo.offline) "." w)
    as (w' & H1 & H2 & H3 & _).
  - left. vm_compute. eauto.
  - exists w'. split; [exact H1|]. split; [exact H2|]. exact H3.
Defined.

(** ** The certificate manager *)

Section CreateKeystore.
Context (env : environment) (script_dir : string).
Context (keystore_path keystore_pass alias alias_pass : string) (validity_days : Z).

Local Abbreviation create :=
  (CertManager.create_keystore env script_dir keystore_path keystore_pass
     alias alias_pass validity_days).
Local Abbreviation create_times :=
  (create_keystore_times env script_dir keystore_path keystore_pass
     alias alias_pass validity_days).
Local Abbreviation already :=
  (Log (CertManager.log_file script_dir)
     ("✓ Keystore already exists at " +:+ keystore_path)).

Lemma create_keystore_present (w : world) :
  is_Some (files w !! keystore_path) ->
  create w = Done true (World (files w) (trace w ++ [already])).
Proof.
  intros H. unfold CertManager.create_keystore.
  rewrite (bind_step _ _ _ _ _ (path_exists_Some _ _ H)). reflexivity.
Qed.

(** What a call does when the keystore is missing: one run of the
    generation tool, and success exactly when the file has been written. *)
Lemma create_keystore_missing (w : world) :
  files w !! keystore_path = None ->
  exists b w1, create w = Done b w1
    /\ genkey_runs (trace w1) = genkey_runs (trace w) + 1
    /\ (b = true -> is_Some (files w1 !! keystore_path)).
Proof.
  intros H. unfold CertManager.create_keystore.
  rewrite (bind_step _ _ _ _ _ (path_exists_None _ _ H)). cbv beta iota.
  unfold CertManager.log_message, emit, bind at 1.
  match goal with
  | |- context [subprocess_run env ?c (Some 30) ?f] =>
      destruct (subprocess_run_returns env c 30 f
                  (World (files w) (trace w ++
                     [Log (CertManager.log_file script_dir)
                        ("🔐 Creating keystore: " +:+ keystore_path)])))
        as (r & Hrun)
  end.
  unfold bind at 1. rewrite Hrun. clear Hrun.
  destruct r as [rc out err|e]; simpl.
  - case_bool_decide as Hrc.
    + eexists _, _. split; [reflexivity|]. simpl. split; [count_events|].
      intros _. rewrite lookup_insert_eq. eauto.
    + eexists _, _. split; [reflexivity|]. simpl. split; [count_events|discriminate].
  - eexists _, _. split; [reflexivity|]. simpl. split; [count_events|discriminate].
Qed.

Lemma create_times_present (n : nat) (w : world) :
  is_Some (files w !! keystore_path) ->
  exists wn, create_times n w = Done true wn
    /\ files wn = files w
    /\ genkey_runs (trace wn) = genkey_runs (trace w).
Proof.
  revert w. induction n as [|n IH]; intros w H.
  - exists w. by repeat split.
  - cbn [create_keystore_times].
    rewrite (bind_step _ _ _ _ _ (create_keystore_present w H)).
    destruct n as [|n].
    + eexists. split; [reflexivity|]. simpl. split; [done|].
      unfold genkey_runs. rewrite count_app. unfold count. simpl. lia.
    + destruct (IH (World (files w) (trace w ++ [already]))) as (wn & H1 & H2 & H3);
        [exact H|].
      exists wn. split; [exact H1|]. split; [exact H2|].
      rewrite H3. unfold genkey_runs. simpl. rewrite count_app.
      unfold count. simpl. lia.
Qed.

End CreateKeystore.

(** C6. At a path where the keystore file exists, [create_keystore]
    returns success and runs no program; so does any number of further
    calls, and when the file came from a first successful call on a
    missing path the generation tool has run exactly once in total. *)
Theorem create_keystore_idempotent (env : environment) (script_dir : string)
    (keystore_path keystore_pass alias alias_pass : string) (validity_days : Z)
    (n : nat) (w : world)
    (Hex : is_Some (files w !! keystore_path)) :
  let create := CertManager.create_keystore env script_dir keystore_path keystore_pass
                  alias alias_pass validity_days in
  create w = Done true (World (files w) (trace w ++
               [Log (CertManager.log_file script_dir)
                    ("✓ Keystore already exists at " +:+ keystore_path)]))
  /\ exists wn,
       create_keystore_times env script_dir keystore_path keystore_pass alias alias_pass
         validity_days n w = Done true wn
       /\ files wn = files w
       /\ genkey_runs (trace wn) = genkey_runs (trace w)
       /\ forall w0, files w0 !! keystore_path = None ->
            create w0 = Done true w ->
            genkey_runs (trace wn) = genkey_runs (trace w0) + 1.
Proof.
  intros create. split; [by apply create_keystore_present|].
  destruct (create_times_present env script_dir keystore_path keystore_pass alias
              alias_pass validity_days n w Hex) as (wn & H1 & H2 & H3).
  exists wn. split; [exact H1|]. split; [exact H2|]. split; [exact H3|].
  intros w0 Hmiss Hfirst.
  destruct (create_keystore_missing env script_dir keystore_path keystore_pass alias
              alias_pass validity_days w0 Hmiss) as (b & w1 & Hc & Hruns & _).
  subst create. rewrite Hfirst in Hc. injection Hc as <- <-.
  by rewrite H3.
Qed.

(** Three calls on an empty disk with a working keytool: one run in all. *)
Lemma create_keystore_idempotent_witness :
  let env := Demo.env (Some 0%Z) Demo.ok Demo.offline in
  let create := CertManager.create_keystore env "." "certs/k.keystore" "pw" "a" "pw" 25550 in
  exists w1 w3,
    create (Demo.disk []) = Done true w1
    /\ create_keystore_times env "." "certs/k.keystore" "pw" "a" "pw" 25550 2 w1
       = Done true w3
    /\ genkey_runs (trace w3) = 1.
Proof.
  intros env create.
  destruct (create (Demo.disk [])) as [b w1|w1] eqn:Hfirst; [|discriminate Hfirst].
  assert (Hb : b = true) by (revert Hfirst; vm_compute; congruence).
  subst b.
  assert (Hex : is_Some (files w1 !! "certs/k.keystore")).
  { revert Hfirst. vm_compute. intros [= <-]. eauto. }
  destruct (create_keystore_idempotent env "." "certs/k.keystore" "pw" "a" "pw" 25550 2
              w1 Hex) as (_ & wn & H1 & _ & _ & H4).
  exists w1, wn. split; [reflexivity|]. split; [exact H1|].
  rewrite (H4 (Demo.disk [])); [reflexivity| reflexivity | exact Hfirst].
Defined.

(** ** The analyzer: grouping by module *)

Lemma split_nonempty (sep : ascii) (s : string) : PyStr.split sep s <> [].
Proof.
  destruct s as [|c s]; simpl; [done|].
  destruct (Ascii.eqb c sep); [done|].
  by destruct (PyStr.split sep s).
Qed.

Lemma group_step_append (modules : Analyzer.dict) (file : string) :
  Analyzer.group_step modules file
  = Analyzer.dict_append modules (Analyzer.module_of file) file.
Proof.
  unfold Analyzer.group_step, Analyzer.module_of.
  pose proof (split_nonempty "/" file) as H.
  by destruct (PyStr.split "/" file).
Qed.

Lemma dict_get_append (modules : Analyzer.dict) (k file m : string) :
  Analyzer.dict_get (Analyzer.dict_append modules k file) m
  = if decide (k = m) then (Analyzer.dict_get modules m ++ [file])%list
    else Analyzer.dict_get modules m.
Proof.
  induction modules as [|[k' v] rest IH]; simpl.
  - destruct (String.eqb_spec k m); by case_decide.
  - destruct (String.eqb_spec k' k) as [->|Hk]; simpl.
    + destruct (String.eqb_spec k m); by case_decide.
    + destruct (String.eqb_spec k' m) as [->|Hm]; [|exact IH].
      by rewrite decide_False by congruence.
Qed.

Lemma keys_append (modules : Analyzer.dict) (k file m : string) :
  m ∈ Analyzer.keys (Analyzer.dict_append modules k file)
  <-> m ∈ Analyzer.keys modules \/ m = k.
Proof.
  unfold Analyzer.keys. induction modules as [|[k' v] rest IH]; simpl.
  - rewrite list_elem_of_singleton. set_solver.
  - destruct (String.eqb_spec k' k) as [->|Hk]; simpl.
    + set_solver.
    + rewrite !elem_of_cons, IH. tauto.
Qed.

Section Grouping.
Context (m : string).

Local Abbreviation member := (fun f : string => Analyzer.module_of f = m).

Lemma group_fold_get (files : list string) (acc : Analyzer.dict) :
  Analyzer.dict_get (fold_left Analyzer.group_step files acc) m
  = (Analyzer.dict_get acc m ++ filter member files)%list.
Proof.
  revert acc. induction files as [|f files IH]; intros acc; simpl.
  - by rewrite app_nil_r.
  - rewrite IH, group_step_append, dict_get_append, filter_cons.
    cbv beta. case_decide; [|done].
    by rewrite <- (assoc_L (++)).
Qed.

Lemma group_fold_keys (files : list string) (acc : Analyzer.dict) :
  m ∈ Analyzer.keys (fold_left Analyzer.group_step files acc)
  <-> m ∈ Analyzer.keys acc \/ exists f, f ∈ files /\ member f.
Proof.
  revert acc. induction files as [|f files IH]; intros acc; simpl.
  - set_solver.
  - rewrite IH, group_step_append, keys_append.
    split.
    + intros [[H| ->]|(f' & H1 & H2)]; [by left|right; exists f; set_solver|].
      right. exists f'. set_solver.
    + intros [H|(f' & H1 & H2)]; [by left; left|].
      apply elem_of_cons in H1 as [->|H1]; [left; by right|].
      right. by exists f'.
Qed.

(** The files listed under module [m] are the entries whose first path
    segment is [m], in archive order. *)
Lemma group_by_module_get (files : list string) :
  Analyzer.dict_get (Analyzer.group_by_module files) m = filter member files.
Proof. unfold Analyzer.group_by_module. by rewrite group_fold_get. Qed.

Lemma group_by_module_keys (files : list string) :
  m ∈ Analyzer.keys (Analyzer.group_by_module files)
  <-> exists f, f ∈ files /\ member f.
Proof.
  unfold Analyzer.group_by_module. rewrite group_fold_keys.
  unfold Analyzer.keys. set_solver.
Qed.

End Grouping.



(** A name without a separator is its own first segment. *)
Lemma split_no_separator (sep : ascii) (s : string) :
  PyStr.contains sep s = false -> PyStr.split sep s = [s].
Proof.
  induction s as [|c s IH]; simpl; [done|].
  destruct (Ascii.eqb c sep); simpl; [done|].
  intros H. by rewrite (IH H).
Qed.

(** ** The analyzer: runs *)

Lemma analyze_aab_zip (env : environment) (path : string)
    (es : list (string * fdata)) (w : world) :
  files w !! path = Some (Zip es) ->
  Analyzer.analyze_aab env path w
  = Done true (World (files w)
      (trace w ++ Analyzer.file_details env path (Zip es)
       ++ ZipOpen path ZRead :: Analyzer.contents_line (length es)
       :: Analyzer.module_report (Analyzer.group_by_module (map fst es))
       ++ [Analyzer.valid_line])).
Proof.
  intros H. unfold Analyzer.analyze_aab, read_file, zip_namelist, emit, emit_all,
    bind, ret. simpl. rewrite H. simpl. rewrite H. simpl.
  rewrite length_map. f_equal. f_equal.
  rewrite <- !(assoc_L (++)). reflexivity.
Qed.

Lemma analyze_aab_missing (env : environment) (path : string) (w : world) :
  files w !! path = None ->
  Analyzer.analyze_aab env path w
  = Done false (World (files w) (trace w ++ [Analyzer.not_found_line path])).
Proof.
  intros H. unfold Analyzer.analyze_aab, read_file, emit, bind, ret.
  by rewrite H.
Qed.

Lemma analyze_aab_blob (env : environment) (path bytes : string) (w : world) :
  files w !! path = Some (Blob bytes) ->
  Analyzer.analyze_aab env path w
  = Done false (World (files w)
      (trace w ++ Analyzer.file_details env path (Blob bytes)
       ++ [ZipOpen path ZRead; Analyzer.bad_zip_line])).
Proof.
  intros H. unfold Analyzer.analyze_aab, read_file, zip_namelist, emit, emit_all,
    bind, ret. simpl. rewrite H. simpl. rewrite H. simpl.
  f_equal. f_equal. rewrite <- !(assoc_L (++)). reflexivity.
Qed.






(** ** The converter: stage by stage *)

Section ConverterStages.
Context (env : environment) (self : Converter.APKtoAABConverter).

Local Abbreviation log := (Log (Converter.log_file self)).

(** The requirement check reads the disk and writes nothing; it stops
    at the first prerequisite that is not met. *)
Lemma check_requirements_first_failing (w : world) (status : Z) :
  shell env (files w) java_check = Some status ->
  exists logs,
    Converter.check_requirements env self w
    = Done (bool_decide (first_failing env self (files w) = None))
           (World (files w) (trace w ++ logs))
    /\ zip_opens logs = 0
    /\ forall r, first_failing env self (files w) = Some r ->
         last logs = Some (log (failure_reason self r)).
Proof.
  intros Hjava.
  unfold Converter.check_requirements, Converter.log_message, os_system,
    path_exists, emit, bind, ret, first_failing, requirement_order. simpl.
  fold java_check. rewrite Hjava. simpl.
  destruct (bool_decide (status = 0%Z)) eqn:Hst; simpl.
  - apply bool_decide_eq_true_1 in Hst as ->.
    rewrite (bool_decide_eq_true_2 (Some 0%Z = Some 0%Z)) by done. simpl.
    destruct (bool_decide (is_Some (files w !! Converter.bundletool_jar self)));
      simpl.
    + destruct (bool_decide (is_Some (files w !! Converter.keystore_path self)));
        simpl; eexists; rewrite <- !(assoc_L (++)); simpl;
        (split; [reflexivity|split; [reflexivity|]]).
      * discriminate.
      * by intros r [= <-].
    + eexists. rewrite <- !(assoc_L (++)). simpl.
      split; [reflexivity|split; [reflexivity|]]. by intros r [= <-].
  - apply bool_decide_eq_false_1 in Hst.
    rewrite (bool_decide_eq_false_2 (Some status = Some 0%Z)) by congruence.
    simpl. eexists. rewrite <- !(assoc_L (++)). simpl.
    split; [reflexivity|split; [reflexivity|]]. by intros r [= <-].
Qed.

(** A successful construction has read the APK and put the two-entry
    archive at the output path, touching nothing else. *)
Lemma convert_apk_to_aab_success (apk_path out : string) (w w1 : world) :
  Converter.convert_apk_to_aab env self apk_path out w = Done true w1 ->
  exists apk,
    files w !! apk_path = Some apk
    /\ files w1 = <[out := Zip (Converter.bundle_entries apk)]> (files w)
    /\ exists logs, trace w1 = trace w ++ logs /\ ZipOpen out ZWrite ∈ logs.
Proof.
  unfold Converter.convert_apk_to_aab, Converter.log_message, read_file,
    zip_create, emit, bind, ret. simpl.
  destruct (files w !! apk_path) as [apk|] eqn:Hapk; simpl; [|discriminate].
  destruct (zip_write_error env (files w) out) as [e|]; simpl; [discriminate|].
  rewrite lookup_insert_eq. simpl.
  intros [= <-]. exists apk. simpl. split; [done|]. split; [done|].
  eexists. rewrite <- !(assoc_L (++)). simpl. split; [reflexivity|].
  set_solver.
Qed.

End ConverterStages.

(** ** The converter: signing and the info dump *)

Lemma parent_nonempty (p : string) : PyPath.parent p <> EmptyString.
Proof.
  unfold PyPath.parent.
  destruct (PyStr.rfind "/" p) as [[|i]|] eqn:H; try done.
  destruct p as [|c p]; [discriminate H|]. done.
Qed.

Lemma join_nonempty (d n : string) : d <> EmptyString -> PyPath.join d n <> EmptyString.
Proof.
  intros Hd. unfold PyPath.join.
  destruct (String.eqb_spec n "") as [->|Hn]; [done|].
  destruct (String.eqb_spec d ".") as [->|_]; [done|].
  destruct (String.eqb_spec d "/") as [->|_]; [done|].
  destruct d; [done|]. cbv [String.append]. done.
Qed.

Lemma signed_aab_path_truthy (aab_path : string) :
  Converter.truthy (Some (Converter.signed_aab_path aab_path)) = true.
Proof.
  unfold Converter.truthy, Converter.signed_aab_path.
  destruct (String.eqb_spec
              (PyPath.join (PyPath.parent aab_path)
                 (Converter.signed_name (PyPath.name aab_path))) "") as [H|H]; [|done].
  by apply join_nonempty in H; [|apply parent_nonempty].
Qed.

Section ConverterTools.
Context (env : environment) (self : Converter.APKtoAABConverter).

(** Signing always comes back, having started [jarsigner] once with a
    timeout of 120 seconds; a failed signing leaves every file as it
    was. *)
Lemma sign_aab_returns (aab_path : string) (w : world) :
  exists r logs,
    Converter.sign_aab env self aab_path w
    = Done r (World (if Converter.truthy r
                     then alter (signed_file env) aab_path (files w)
                     else files w)
                    (trace w ++ logs))
    /\ zip_opens logs = 0
    /\ List.filter (fun e => match e with Run _ _ => true | _ => false end) logs
       = [Run (Converter.sign_cmd self aab_path) (Some 120)].
Proof.
  unfold Converter.sign_aab, Converter.log_message, emit, bind at 1 2 3.
  simpl. unfold bind at 1.
  match goal with
  | |- context [subprocess_run env ?c (Some 120) ?f ?w0] =>
      destruct (subprocess_run_returns env c 120 f w0) as (r & Hrun)
  end.
  rewrite Hrun. clear Hrun.
  pose proof (signed_aab_path_truthy aab_path) as Ht.
  destruct r as [rc out err|e]; unfold bind, ret; simpl.
  - case_bool_decide as Hrc; simpl.
    + eexists (Some _), _. rewrite Ht. tidy.
      split; [reflexivity|]. split; reflexivity.
    + eexists None, _. tidy.
      split; [reflexivity|]. split; reflexivity.
  - eexists None, _. tidy.
    split; [reflexivity|]. split; reflexivity.
Qed.

(** The info dump always comes back and writes nothing. *)
Lemma get_bundle_info_returns (aab_path : string) (w : world) :
  exists b logs,
    Converter.get_bundle_info env self aab_path w
    = Done b (World (files w) (trace w ++ logs))
    /\ zip_opens logs = 0
    /\ Forall (fun e => forall argv t, e = Run argv t -> t = Some 30) logs.
Proof.
  unfold Converter.get_bundle_info, path_exists, bind at 1.
  case_bool_decide as Hex; simpl.
  - unfold Converter.log_message, emit, bind at 1.
    simpl. unfold bind at 1.
    match goal with
    | |- context [subprocess_run env ?c (Some 30) ?f ?w0] =>
        destruct (subprocess_run_returns env c 30 f w0) as (r & Hrun)
    end.
    rewrite Hrun. clear Hrun.
    assert (Hid : files_after r id (files w) = files w).
    { destruct r; simpl; [by case_bool_decide|done]. }
    simpl. rewrite Hid.
    destruct r as [rc out err|e]; simpl.
    + unfold bind, ret. case_bool_decide; simpl;
        eexists _, _; tidy;
        (split; [reflexivity|]); (split; [reflexivity|]);
        repeat constructor; intros; congruence.
    + unfold bind, ret. simpl.
      eexists _, _; tidy;
        (split; [reflexivity|]); (split; [reflexivity|]);
        repeat constructor; intros; congruence.
  - unfold Converter.log_message, emit, bind, ret. simpl.
    eexists _, _. split; [reflexivity|]. split; [reflexivity|].
    repeat constructor; intros; congruence.
Qed.

End ConverterTools.

(** ** The converter: the pipeline *)

Lemma first_failing_cases (env : environment) (self : Converter.APKtoAABConverter)
    (fs : gmap string fdata) :
  match first_failing env self fs with
  | Some JavaInvocable => shell env fs java_check <> Some 0%Z
  | Some BundletoolPresent =>
      shell env fs java_check = Some 0%Z /\ fs !! Converter.bundletool_jar self = None
  | Some KeystorePresent =>
      shell env fs java_check = Some 0%Z
      /\ is_Some (fs !! Converter.bundletool_jar self)
      /\ fs !! Converter.keystore_path self = None
  | None =>
      shell env fs java_check = Some 0%Z
      /\ is_Some (fs !! Converter.bundletool_jar self)
      /\ is_Some (fs !! Converter.keystore_path self)
  end.
Proof.
  unfold first_failing, requirement_order. simpl.
  repeat (case_bool_decide; simpl); repeat split; try done;
    match goal with
    | H : ¬ is_Some _ |- _ => by apply eq_None_not_Some
    end.
Qed.

Lemma process_apk_unfold (env : environment) (self : Converter.APKtoAABConverter)
    (apk : string) (sign : bool) (w : world) :
  Converter.process_apk env self apk sign w
  = bind (Converter.check_requirements env self)
      (fun ok =>
         if negb ok then ret false else
         let output_aab := PyPath.join (Converter.output_dir self)
                             (Converter.output_name apk) in
         built <- Converter.convert_apk_to_aab env self apk output_aab ;;
         if negb built then ret false else
         (if sign then
            s <- Converter.sign_aab env self output_aab ;;
            if negb (Converter.truthy s)
            then Converter.log_message self "⚠ AAB created but signing failed"
            else ret tt
          else ret tt) ;;
         Converter.get_bundle_info env self output_aab ;;
         Converter.log_message self rule ;;
         Converter.log_message self "✓ Conversion completed!" ;;
         Converter.log_message self ("  Output: " +:+ output_aab) ;;
         Converter.log_message self rule ;;
         ret true)
      (World (files w) (trace w ++ banner self)).
Proof.
  unfold Converter.process_apk, Converter.log_message at 1 2 3, emit, bind at 1 2 3.
  simpl. by rewrite <- !(assoc_L (++)).
Qed.

(** C2. With a Java check that comes back, the requirement check passes
    exactly when Java is invocable, the bundletool jar is present and the
    keystore file is present.  Otherwise the first of the three, in that
    order, that is not met is the reason logged last; [process_apk]
    returns failure and the script exits with status 1, whether or not
    signing was asked for, and up to then no file has been written and no
    archive opened. *)
Theorem requirement_check_order (env : environment) (script_dir apk prog : string)
    (sign : bool) (rest : list string) (w : world) (status : Z)
    (Hjava : shell env (files w) java_check = Some status) :
  let self := Converter.init script_dir in
  let started := World (files w) (trace w ++ banner self) in
  match first_failing env self (files w) with
  | Some r =>
      exists w',
        Converter.check_requirements env self started = Done false w'
        /\ Converter.process_apk env self apk sign w = Done false w'
        /\ Converter.main env script_dir (prog :: apk :: rest) w = Done 1%Z w'
        /\ files w' = files w
        /\ zip_opens (trace w') = zip_opens (trace w)
        /\ last (trace w') = Some (Log (Converter.log_file self) (failure_reason self r))
        /\ match r with
           | JavaInvocable => status <> 0%Z
           | BundletoolPresent =>
               status = 0%Z /\ files w !! Converter.bundletool_jar self = None
           | KeystorePresent =>
               status = 0%Z /\ is_Some (files w !! Converter.bundletool_jar self)
               /\ files w !! Converter.keystore_path self = None
           end
  | None =>
      status = 0%Z
      /\ is_Some (files w !! Converter.bundletool_jar self)
      /\ is_Some (files w !! Converter.keystore_path self)
      /\ exists w1, Converter.check_requirements env self started = Done true w1
                    /\ files w1 = files w
  end.
Proof.
  intros self started.
  destruct (check_requirements_first_failing env self started status Hjava)
    as (logs & Hcheck & Hzip & Hlast).
  pose proof (first_failing_cases env self (files w)) as Hcases.
  change (files started) with (files w) in *.
  destruct (first_failing env self (files w)) as [r|] eqn:Hff.
  - rewrite bool_decide_eq_false_2 in Hcheck by done.
    assert (Hlogs : last (trace started ++ logs)
                    = Some (Log (Converter.log_file self) (failure_reason self r))).
    { specialize (Hlast r eq_refl). destruct logs as [|e logs] using rev_ind;
        [discriminate Hlast|].
      rewrite last_snoc in Hlast. by rewrite (assoc_L (++)), last_snoc. }
    assert (Hproc : forall s, Converter.process_apk env self apk s w
                    = Done false (World (files w) (trace started ++ logs))).
    { intros s. rewrite process_apk_unfold. by rewrite (bind_step _ _ _ _ _ Hcheck). }
    eexists. split; [exact Hcheck|]. split; [apply Hproc|].
    split; [unfold Converter.main; by rewrite (bind_step _ _ _ _ _ (Hproc _))|].
    simpl. split; [done|]. split.
    { unfold zip_opens in *. rewrite !count_app, Hzip. unfold count. simpl. lia. }
    split; [exact Hlogs|].
    destruct r; rewrite Hjava in Hcases.
    + congruence.
    + destruct Hcases as [[= ->] ?]. done.
    + destruct Hcases as ([= ->] & ? & ?). done.
  - rewrite Hjava in Hcases. destruct Hcases as ([= ->] & ? & ?).
    rewrite bool_decide_eq_true_2 in Hcheck by done.
    repeat split; try done. by eexists.
Qed.

Lemma requirement_check_order_witness :
  let env := Demo.env (Some 0%Z) Demo.ok Demo.offline in
  let w := Demo.disk [("tools/bundletool.jar", Blob "jar"); ("demo app.apk", Blob "apk")] in
  exists w',
    Converter.process_apk env (Converter.init ".") "demo app.apk" true w = Done false w'
    /\ Converter.main env "." ["apk_to_aab.py"; "demo app.apk"] w = Done 1%Z w'
    /\ files w' = files w
    /\ zip_opens (trace w') = 0
    /\ last (trace w')
       = Some (Log "logs/conversion.log"
                 "✗ Keystore not found at certs/iot_marketplace_app.keystore").
Proof.
  intros env w.
  pose proof (requirement_check_order env "." "demo app.apk" "apk_to_aab.py" true [] w
                0%Z eq_refl) as H.
  assert (Hff : first_failing env (Converter.init ".") (files w) = Some KeystorePresent)
    by reflexivity.
  cbv zeta in H. rewrite Hff in H.
  destruct H as (w' & _ & Hproc & Hmain & Hfiles & Hzip & Hlast & _).
  exists w'. split; [exact Hproc|]. split; [exact Hmain|]. split; [exact Hfiles|].
  split; [exact Hzip|]. exact Hlast.
Defined.

(** C3. When the requirement check and the bundle construction succeed
    and [sign_aab] returns failure, [process_apk] still returns success
    and the script exits with status 0; the warning is logged, and the
    files are those left by the construction, so the unsigned archive is
    still at the output path. *)
Theorem signing_failure_not_fatal (env : environment)
    (script_dir apk prog : string) (rest : list string) (w w1 w2 w3 : world) :
  let self := Converter.init script_dir in
  let out := PyPath.join (Converter.output_dir self) (Converter.output_name apk) in
  "--no-sign" ∉ prog :: apk :: rest ->
  Converter.check_requirements env self (World (files w) (trace w ++ banner self))
    = Done true w1 ->
  Converter.convert_apk_to_aab env self apk out w1 = Done true w2 ->
  Converter.sign_aab env self out w2 = Done None w3 ->
  exists w',
    Converter.process_apk env self apk true w = Done true w'
    /\ Converter.main env script_dir (prog :: apk :: rest) w = Done 0%Z w'
    /\ files w' = files w2
    /\ (exists data, files w1 !! apk = Some data
          /\ files w' !! out = Some (Zip (Converter.bundle_entries data)))
    /\ Log (Converter.log_file self) "⚠ AAB created but signing failed" ∈ trace w'.
Proof.
  intros self out Hflag Hcheck Hbuild Hsign.
  destruct (sign_aab_returns env self out w2) as (r & slogs & Hs & _).
  rewrite Hsign in Hs. injection Hs as <- ->.
  set (warned := World (files w2) ((trace w2 ++ slogs) ++
         [Log (Converter.log_file self) "⚠ AAB created but signing failed"])).
  destruct (get_bundle_info_returns env self out warned) as (b & ilogs & Hinfo & _).
  assert (Hproc : Converter.process_apk env self apk true w
                  = Done true (World (files w2)
                      ((trace warned ++ ilogs) ++
                       [Log (Converter.log_file self) rule;
                        Log (Converter.log_file self) "✓ Conversion completed!";
                        Log (Converter.log_file self) ("  Output: " +:+ out);
                        Log (Converter.log_file self) rule]))).
  { rewrite process_apk_unfold, (bind_step _ _ _ _ _ Hcheck).
    cbn [negb]. cbv zeta. fold out.
    rewrite (bind_step _ _ _ _ _ Hbuild). cbn [negb].
    unfold bind at 1 2. rewrite Hsign. cbn [negb Converter.truthy].
    unfold Converter.log_message at 1, emit at 1. cbn [files trace]. fold warned.
    rewrite (bind_step _ _ _ _ _ Hinfo).
    unfold Converter.log_message, emit, bind, ret. cbn [files trace].
    by rewrite <- !(assoc_L (++)). }
  eexists. split; [exact Hproc|]. split.
  { unfold Converter.main. rewrite bool_decide_eq_false_2 by exact Hflag.
    simpl. by rewrite (bind_step _ _ _ _ _ Hproc). }
  simpl. split; [done|]. split.
  - apply convert_apk_to_aab_success in Hbuild as (data & Hdata & Hfs & _).
    exists data. split; [exact Hdata|]. by rewrite Hfs, lookup_insert_eq.
  - set_solver.
Qed.

Lemma signing_failure_not_fatal_witness :
  let env := Demo.env (Some 0%Z) Demo.failing Demo.offline in
  let w := Demo.disk [("tools/bundletool.jar", Blob "jar");
                      ("certs/iot_marketplace_app.keystore", Blob "keystore");
                      ("demo app.apk", Blob "apk")] in
  exists w',
    Converter.process_apk env (Converter.init ".") "demo app.apk" true w = Done true w'
    /\ Converter.main env "." ["apk_to_aab.py"; "demo app.apk"] w = Done 0%Z w'
    /\ files w' !! "output/demo_app.aab"
       = Some (Zip (Converter.bundle_entries (Blob "apk")))
    /\ Log "logs/conversion.log" "⚠ AAB created but signing failed" ∈ trace w'.
Proof.
  intros env w.
  edestruct (signing_failure_not_fatal env "." "demo app.apk" "apk_to_aab.py" [] w)
    as (w' & Hproc & Hmain & _ & (data & Hdata & Hout) & Hwarn).
  - apply (bool_decide_eq_false_1 _). vm_compute. reflexivity.
  - vm_compute. reflexivity.
  - vm_compute. reflexivity.
  - vm_compute. reflexivity.
  - exists w'. split; [exact Hproc|]. split; [exact Hmain|]. split; [|exact Hwarn].
    assert (data = Blob "apk") as -> by (vm_compute in Hdata; congruence).
    exact Hout.
Defined.

(** ** The converter: output name and archive *)

Lemma replace_space_map_chars (s : string) :
  PyStr.replace " " "_" s = map_chars underscore_for_space s.
Proof.
  unfold PyStr.replace. induction s as [|c s IH]; [done|].
  cbn [PyStr.replace_from map_chars String.length Nat.sub].
  unfold underscore_for_space at 1.
  cbn [String.prefix]. destruct (ascii_dec " " c) as [<-|Hne].
  - cbn. destruct s; by rewrite IH.
  - rewrite IH. destruct (Ascii.eqb_spec c " ") as [->|_]; [done|reflexivity].
Qed.

Lemma contains_app (c : ascii) (s t : string) :
  PyStr.contains c (s +:+ t) = PyStr.contains c s || PyStr.contains c t.
Proof.
  induction s as [|a s IH]; [done|].
  change (String a s +:+ t) with (String a (s +:+ t)).
  cbn [PyStr.contains]. rewrite IH. by rewrite orb_assoc.
Qed.

Lemma map_chars_no_space (s : string) :
  PyStr.contains " " (map_chars underscore_for_space s) = false.
Proof.
  induction s as [|c s IH]; [done|].
  cbn [map_chars PyStr.contains]. rewrite IH, orb_false_r.
  unfold underscore_for_space. by destruct (Ascii.eqb_spec c " ") as [->|Hne];
    [|apply Ascii.eqb_neq].
Qed.

Lemma output_name_no_space (apk : string) :
  PyStr.contains " " (Converter.output_name apk) = false.
Proof.
  unfold Converter.output_name.
  by rewrite contains_app, replace_space_map_chars, map_chars_no_space.
Qed.

Section ConverterRun.
Context (env : environment) (self : Converter.APKtoAABConverter).



End ConverterRun.



(** ** The analyzer on the converter's output *)




(** ** The signed-archive name *)

(** C4. [sign_aab] builds the signed name with [str.replace], which
    rewrites every occurrence of [.aab], not only a trailing one:
    [x.aab.aab] becomes [x-signed.aab-signed.aab], not
    [x.aab-signed.aab].  The pipeline reaches this name from the input
    [x.aab.apk]. *)
Theorem signed_name_every_occurrence :
  Converter.signed_name "x.aab.aab" = "x-signed.aab-signed.aab"
  /\ Converter.signed_name "x.aab.aab" <> "x.aab-signed.aab"
  /\ Converter.output_name "x.aab.apk" = "x.aab.aab"
  /\ Converter.signed_aab_path
       (PyPath.join "output" (Converter.output_name "x.aab.apk"))
     = "output/x-signed.aab-signed.aab"
  /\ Converter.signed_name "app.aab" = "app-signed.aab".
Proof. vm_compute. repeat split; try reflexivity. discriminate. Qed.

(** ** Timeouts of the external programs *)

Lemma subprocess_run_exceeds (env : environment) (argv : list string) (limit : nat)
    (effect : gmap string fdata -> gmap string fdata) (w : world) :
  exceeds (program env (files w) argv) limit ->
  subprocess_run env argv (Some limit) effect w
  = Done (Raised (TimeoutExpired argv limit))
         (World (files w) (trace w ++ [Run argv (Some limit)])).
Proof.
  unfold subprocess_run, exceeds.
  destruct (program env (files w) argv) as [t rc out err|err|]; simpl; [|done..].
  intros Ht. by rewrite (proj2 (Nat.ltb_lt limit t) Ht).
Qed.

(** The keytool listing is started without a timeout: when the tool never
    ends, neither does the call.  The same holds for the Java check, made
    with [os.system]. *)
Lemma timeouts_counterexample :
  let env := Demo.env None RunsForever Demo.offline in
  ~ bounded_run (CertManager.list_keystore_info env "." "certs/k.keystore" "pw"
                   (Demo.disk []))
  /\ CertManager.list_keystore_info env "." "certs/k.keystore" "pw" (Demo.disk [])
     = Blocked (World ∅ [Run (CertManager.list_cmd "certs/k.keystore" "pw") None])
  /\ ~ has_fixed_timeout (Run (CertManager.list_cmd "certs/k.keystore" "pw") None)
  /\ ~ bounded_run (Converter.check_requirements env (Converter.init ".") (Demo.disk [])).
Proof.
  intros env. split; [|split; [|split]].
  - intros (b & w' & H & _). vm_compute in H. discriminate H.
  - reflexivity.
  - intros [].
  - intros (b & w' & H & _). vm_compute in H. discriminate H.
Qed.

Section BoundedCalls.
Context (env : environment) (script_dir : string)
        (self : Converter.APKtoAABConverter).

Lemma create_keystore_bounded
    (keystore_path keystore_pass alias alias_pass : string) (validity_days : Z)
    (w : world) :
  let cmd := CertManager.genkey_cmd keystore_path keystore_pass alias alias_pass
               validity_days in
  exists b fs logs,
    CertManager.create_keystore env script_dir keystore_path keystore_pass alias
      alias_pass validity_days w = Done b (World fs (trace w ++ logs))
    /\ Forall has_fixed_timeout logs
    /\ (files w !! keystore_path = None ->
        List.filter is_genkey logs = [Run cmd (Some 30)]
        /\ (exceeds (program env (files w) cmd) 30 -> b = false /\ fs = files w)).
Proof.
  intros cmd. unfold CertManager.create_keystore, path_exists, bind at 1.
  case_bool_decide as Hex.
  - unfold CertManager.log_message, emit, bind, ret. simpl.
    eexists _, _, _. split; [reflexivity|]. split; [by repeat constructor|].
    intros Hnone. rewrite Hnone in Hex. by destruct Hex.
  - unfold CertManager.log_message at 1, emit at 1, bind at 1. fold cmd.
    cbn [files trace]. unfold bind at 1.
    set (w0 := World (files w) _).
    assert (Hexc : exceeds (program env (files w) cmd) 30 ->
              subprocess_run env cmd (Some 30)
                (insert keystore_path (keystore_file env cmd)) w0
              = Done (Raised (TimeoutExpired cmd 30))
                     (World (files w) (trace w0 ++ [Run cmd (Some 30)])))
      by apply (subprocess_run_exceeds env cmd 30 _ w0).
    destruct (subprocess_run_returns env cmd 30
                (insert keystore_path (keystore_file env cmd)) w0) as (r & Hrun).
    rewrite Hrun.
    destruct r as [rc out err|e]; unfold CertManager.log_message, emit, bind, ret.
    + case_bool_decide as Hrc; eexists _, _, _; subst w0; tidy;
        (split; [reflexivity|]);
        (split; [repeat constructor; simpl; lia|]);
        intros _; (split; [reflexivity|]);
        intros Hx; specialize (Hexc Hx); rewrite Hexc in Hrun; discriminate Hrun.
    + eexists _, _, _; subst w0; tidy.
      split; [reflexivity|]. split; [repeat constructor; simpl; lia|].
      intros _. split; [reflexivity|]. done.
Qed.

Lemma sign_aab_bounded (aab_path : string) (w : world) :
  exists r fs logs,
    Converter.sign_aab env self aab_path w = Done r (World fs (trace w ++ logs))
    /\ Forall has_fixed_timeout logs
    /\ Run (Converter.sign_cmd self aab_path) (Some 120) ∈ logs
    /\ (exceeds (program env (files w) (Converter.sign_cmd self aab_path)) 120 ->
        r = None /\ fs = files w).
Proof.
  unfold Converter.sign_aab, Converter.log_message, emit, bind at 1 2 3.
  simpl. unfold bind at 1.
  set (cmd := Converter.sign_cmd self aab_path).
  set (w0 := World (files w) _).
  assert (Hexc : exceeds (program env (files w) cmd) 120 ->
            subprocess_run env cmd (Some 120)
              (alter (signed_file env) aab_path) w0
            = Done (Raised (TimeoutExpired cmd 120))
                   (World (files w) (trace w0 ++ [Run cmd (Some 120)])))
    by apply (subprocess_run_exceeds env cmd 120 _ w0).
  destruct (subprocess_run_returns env cmd 120
              (alter (signed_file env) aab_path) w0) as (r & Hrun).
  rewrite Hrun.
  destruct r as [rc out err|e]; unfold bind, ret.
  - case_bool_decide as Hrc; eexists _, _, _; subst w0; tidy;
      (split; [reflexivity|]);
      (split; [repeat constructor; simpl; lia|]);
      (split; [set_solver|]);
      intros Hx; specialize (Hexc Hx); rewrite Hexc in Hrun; discriminate Hrun.
  - eexists _, _, _; subst w0; tidy.
    split; [reflexivity|]. split; [repeat constructor; simpl; lia|].
    split; [set_solver|]. done.
Qed.

Lemma get_bundle_info_bounded (aab_path : string) (w : world) :
  exists b logs,
    Converter.get_bundle_info env self aab_path w
    = Done b (World (files w) (trace w ++ logs))
    /\ Forall has_fixed_timeout logs
    /\ (is_Some (files w !! aab_path) ->
        Run (Converter.info_cmd self aab_path) (Some 30) ∈ logs
        /\ (exceeds (program env (files w) (Converter.info_cmd self aab_path)) 30 ->
            b = false)).
Proof.
  unfold Converter.get_bundle_info, path_exists, bind at 1.
  case_bool_decide as Hex; cbn [negb].
  - unfold Converter.log_message at 1, emit at 1, bind at 1.
    cbn [files trace]. unfold bind at 1.
    set (cmd := Converter.info_cmd self aab_path).
    set (w0 := World (files w) _).
    assert (Hexc : exceeds (program env (files w) cmd) 30 ->
              subprocess_run env cmd (Some 30) id w0
              = Done (Raised (TimeoutExpired cmd 30))
                     (World (files w) (trace w0 ++ [Run cmd (Some 30)])))
      by apply (subprocess_run_exceeds env cmd 30 _ w0).
    destruct (subprocess_run_returns env cmd 30 id w0) as (r & Hrun).
    rewrite Hrun.
    assert (Hid : files_after r id (files w0) = files w).
    { destruct r; simpl; [by case_bool_decide|done]. }
    rewrite Hid.
    destruct r as [rc out err|e]; unfold Converter.log_message, emit, bind, ret.
    + case_bool_decide as Hrc; eexists _, _; subst w0; tidy;
        (split; [reflexivity|]);
        (split; [repeat constructor; simpl; lia|]);
        intros _; (split; [set_solver|]);
        intros Hx; specialize (Hexc Hx); rewrite Hexc in Hrun; discriminate Hrun.
    + eexists _, _; subst w0; tidy.
      split; [reflexivity|]. split; [repeat constructor; simpl; lia|].
      intros _. split; [set_solver|]. done.
  - unfold Converter.log_message, emit, bind, ret. simpl.
    eexists _, _. split; [reflexivity|]. split; [by repeat constructor|].
    intros Hs. by destruct Hex.
Qed.

(** The Java check has no timeout: it lasts as long as the command. *)
Lemma java_check_unbounded (w : world) :
  shell env (files w) java_check = None ->
  Converter.check_requirements env self w
  = Blocked (World (files w)
       (trace w ++ [Log (Converter.log_file self) "🔍 Checking requirements...";
                    System java_check]))
  /\ Fetcher.check_java env script_dir w
     = Blocked (World (files w) (trace w ++ [System java_check])).
Proof.
  intros H. unfold Converter.check_requirements, Fetcher.check_java,
    Converter.log_message, os_system, emit, bind. simpl.
  fold java_check. rewrite H. by rewrite <- (assoc_L (++)).
Qed.

End BoundedCalls.

(** C9, as the code has it.  The key generation, the signing and the
    manifest dump run with fixed timeouts of 30, 120 and 30 seconds: each
    of these calls comes back, and when its program is still running at
    the timeout the call is a failure that has written nothing.  The Java
    check is made with [os.system], which has no timeout: it lasts as long
    as the command. *)
Theorem external_tool_timeouts (env : environment) (script_dir : string)
    (self : Converter.APKtoAABConverter)
    (keystore_path keystore_pass alias alias_pass : string) (validity_days : Z)
    (aab_path : string) (w : world) :
  let genkey := CertManager.genkey_cmd keystore_path keystore_pass alias alias_pass
                  validity_days in
  let sign := Converter.sign_cmd self aab_path in
  let info := Converter.info_cmd self aab_path in
  (exists b fs logs,
     CertManager.create_keystore env script_dir keystore_path keystore_pass alias
       alias_pass validity_days w = Done b (World fs (trace w ++ logs))
     /\ Forall has_fixed_timeout logs
     /\ (files w !! keystore_path = None ->
         List.filter is_genkey logs = [Run genkey (Some 30)]
         /\ (exceeds (program env (files w) genkey) 30 -> b = false /\ fs = files w)))
  /\ (exists r fs logs,
        Converter.sign_aab env self aab_path w = Done r (World fs (trace w ++ logs))
        /\ Forall has_fixed_timeout logs
        /\ Run sign (Some 120) ∈ logs
        /\ (exceeds (program env (files w) sign) 120 -> r = None /\ fs = files w))
  /\ (exists b logs,
        Converter.get_bundle_info env self aab_path w
        = Done b (World (files w) (trace w ++ logs))
        /\ Forall has_fixed_timeout logs
        /\ (is_Some (files w !! aab_path) ->
            Run info (Some 30) ∈ logs
            /\ (exceeds (program env (files w) info) 30 -> b = false)))
  /\ (shell env (files w) java_check = None ->
      exists w', Converter.check_requirements env self w = Blocked w'
                 /\ System java_check ∈ trace w').
Proof.
  intros genkey sign info.
  split; [apply create_keystore_bounded|].
  split; [apply sign_aab_bounded|].
  split; [apply get_bundle_info_bounded|].
  intros H. destruct (java_check_unbounded env script_dir self w H) as [Hc _].
  eexists. split; [exact Hc|]. simpl. set_solver.
Qed.

(** Programs that never end: the three calls with a timeout fail, the
    Java check blocks. *)
Lemma external_tool_timeouts_witness :
  let env := Demo.env None RunsForever Demo.offline in
  let self := Converter.init "." in
  let w := Demo.disk [("output/app.aab", Zip [])] in
  (exists w', CertManager.create_keystore env "." "certs/k.keystore" "pw" "a" "pw" 25550 w
              = Done false w' /\ files w' = files w)
  /\ (exists w', Converter.sign_aab env self "output/app.aab" w = Done None w'
                 /\ files w' = files w)
  /\ (exists w', Converter.get_bundle_info env self "output/app.aab" w = Done false w')
  /\ (exists w', Converter.check_requirements env self w = Blocked w').
Proof.
  intros env self w.
  destruct (external_tool_timeouts env "." self "certs/k.keystore" "pw" "a" "pw" 25550
              "output/app.aab" w)
    as ((b & fs & l1 & Hc & _ & Hk) & (r & fs2 & l2 & Hs & _ & _ & Hx)
        & (b3 & l3 & Hi & _ & Hy) & Hj).
  destruct (Hk eq_refl) as [_ Hk'].
  destruct (Hk' I) as [-> ->]. destruct (Hx I) as [-> ->].
  destruct (Hy (ex_intro _ (Zip []) eq_refl)) as [_ Hy'].
  rewrite (Hy' I) in Hi.
  destruct (Hj eq_refl) as (wj & Hjava & _).
  split; [by eexists|]. split; [by eexists|]. split; by eexists.
Defined.

(** * Further properties of the scripts *)

(** ** The fetcher: downloads and exit status *)

Lemma same_but_refl (p : string) (fs : gmap string fdata) : same_but p fs fs.
Proof. by intros q _. Qed.

Lemma same_but_insert (p : string) (d : fdata) (fs : gmap string fdata) :
  same_but p fs (<[p := d]> fs).
Proof. intros q Hq. by rewrite lookup_insert_ne. Qed.

Lemma same_but_alter (p : string) (f : fdata -> fdata) (fs : gmap string fdata) :
  same_but p fs (alter f p fs).
Proof. intros q Hq. by rewrite lookup_alter_ne. Qed.

Lemma same_but_trans (p : string) (fs1 fs2 fs3 : gmap string fdata) :
  same_but p fs1 fs2 -> same_but p fs2 fs3 -> same_but p fs1 fs3.
Proof. intros H1 H2 q Hq. by rewrite H2, H1. Qed.

(** What a call does when the jar is missing, by what the network gives. *)
Lemma download_bundletool_missing (env : environment) (dir : string) (w : world) :
  files w !! Fetcher.BUNDLETOOL_JAR dir = None ->
  exists b fs logs,
    Fetcher.download_bundletool env dir w = Done b (World fs (trace w ++ logs))
    /\ count is_fetch logs = 1
    /\ UrlRetrieve Fetcher.BUNDLETOOL_URL (Fetcher.BUNDLETOOL_JAR dir) ∈ logs
    /\ same_but (Fetcher.BUNDLETOOL_JAR dir) (files w) fs
    /\ (b = true -> is_Some (fs !! Fetcher.BUNDLETOOL_JAR dir))
    /\ match fetch env Fetcher.BUNDLETOOL_URL with
       | NoResponse _ => b = false /\ fs = files w
       | Response _ total _ failure content =>
           b = bool_decide (total <> 0%Z /\ failure = None)
           /\ fs = <[Fetcher.BUNDLETOOL_JAR dir :=
                     if bool_decide (total = 0%Z) then Blob "" else content]> (files w)
       end.
Proof.
  intros Hmiss. unfold Fetcher.download_bundletool.
  rewrite (bind_step _ _ _ _ _ (path_exists_None _ _ Hmiss)). cbv beta iota.
  unfold Fetcher.urlretrieve, Fetcher.log_message, emit, emit_all, update_files,
    print, emit, bind, ret.
  destruct (fetch env Fetcher.BUNDLETOOL_URL) as [e|bs ts n failure content];
    cbn [files trace].
  - eexists _, _, _. tidy. split; [reflexivity|].
    split; [reflexivity|]. split; [set_solver|].
    split; [apply same_but_refl|]. split; [discriminate|]. done.
  - case_bool_decide as Hts; cbn [files trace].
    + eexists _, _, _. tidy. split; [reflexivity|].
      split; [reflexivity|]. split; [set_solver|].
      split; [apply same_but_insert|]. split; [discriminate|].
      split; [|done]. symmetry. apply bool_decide_eq_false_2. tauto.
    + assert (Hhook : count is_fetch
                (map (fun k => Fetcher.progress_hook env (Z.of_nat k) bs ts)
                     (seq 0 (S n))) = 0).
      { unfold count. induction (seq 0 (S n)) as [|k l IH]; [done|]. exact IH. }
      assert (Hnot : UrlRetrieve Fetcher.BUNDLETOOL_URL (Fetcher.BUNDLETOOL_JAR dir)
                     ∉ map (fun k => Fetcher.progress_hook env (Z.of_nat k) bs ts)
                           (seq 0 (S n))) by (by intros (k & [=] & _)%list_elem_of_fmap).
      revert Hhook Hnot.
      generalize (map (fun k => Fetcher.progress_hook env (Z.of_nat k) bs ts)
                      (seq 0 (S n))).
      intros hooks Hhook _.
      destruct failure as [e|]; cbn [files trace].
      * eexists _, _, _. rewrite <- !(assoc_L (++)). split; [reflexivity|].
        split; [rewrite !count_app, Hhook; reflexivity|].
        split; [set_solver|]. split; [apply same_but_insert|].
        split; [discriminate|]. split; [|done].
        symmetry. apply bool_decide_eq_false_2. by intros [_ ?].
      * eexists _, _, _. rewrite <- !(assoc_L (++)). split; [reflexivity|].
        split; [rewrite !count_app, Hhook; reflexivity|].
        split; [set_solver|]. split; [apply same_but_insert|].
        split; [intros _; rewrite lookup_insert_eq; eauto|]. split; [|done].
        symmetry. by apply bool_decide_eq_true_2.
Qed.



(** X2. A download that breaks off after the response has begun (an
    error while reading, or a division by zero in the progress hook when
    the announced size is 0) returns failure but leaves a file at the jar
    path; the next call finds it, reports success, and downloads nothing. *)
Theorem broken_download_taken_for_complete (env : environment) (dir : string)
    (w : world) (block_size total_size : Z) (blocks : nat)
    (failure : option exn) (content : fdata)
    (Hmiss : files w !! Fetcher.BUNDLETOOL_JAR dir = None)
    (Hnet : fetch env Fetcher.BUNDLETOOL_URL
            = Response block_size total_size blocks failure content)
    (Hbroken : total_size = 0%Z \/ failure <> None) :
  exists w1 w2,
    Fetcher.download_bundletool env dir w = Done false w1
    /\ is_Some (files w1 !! Fetcher.BUNDLETOOL_JAR dir)
    /\ Fetcher.download_bundletool env dir w1 = Done true w2
    /\ files w2 = files w1
    /\ network_requests (trace w2) = network_requests (trace w1).
Proof.
  destruct (download_bundletool_missing env dir w Hmiss)
    as (b & fs & logs & Hrun & _ & _ & _ & _ & Hfetch).
  rewrite Hnet in Hfetch. destruct Hfetch as [Hb Hfs].
  assert (b = false) as ->.
  { rewrite Hb. apply bool_decide_eq_false_2. tauto. }
  assert (Hjar : is_Some (fs !! Fetcher.BUNDLETOOL_JAR dir))
    by (rewrite Hfs, lookup_insert_eq; eauto).
  eexists _, _. split; [exact Hrun|]. split; [exact Hjar|].
  split; [by apply download_bundletool_present|].
  split; [reflexivity|]. cbn [trace]. count_events.
Qed.

Lemma broken_download_taken_for_complete_witness :
  let env := Demo.env (Some 0%Z) Demo.ok (Response 8192 0 0 None (Blob "")) in
  exists w1 w2,
    Fetcher.download_bundletool env "." (Demo.disk []) = Done false w1
    /\ Fetcher.download_bundletool env "." w1 = Done true w2
    /\ network_requests (trace w2) = 1.
Proof.
  intros env.
  destruct (broken_download_taken_for_complete env "." (Demo.disk []) 8192 0 0 None
              (Blob "") eq_refl eq_refl (or_introl eq_refl))
    as (w1 & w2 & H1 & _ & H2 & _ & Hn).
  exists w1, w2. split; [exact H1|]. split; [exact H2|].
  rewrite Hn. vm_compute in H1. injection H1 as <-. reflexivity.
Defined.





(** ** The certificate manager: results and exit status *)

Ltac count_all :=
  unfold program_runs, jarsigner_runs, external_effects, network_requests,
    genkey_runs, zip_opens;
  rewrite ?count_app; unfold count; simpl; lia.


Section KeystoreCalls.
Context (env : environment) (script_dir : string).



End KeystoreCalls.











(** ** The converter: what each stage may touch *)

Section ConverterFrames.
Context (env : environment) (self : Converter.APKtoAABConverter).

Lemma check_requirements_quiet (w w1 : world) (b : bool) :
  Converter.check_requirements env self w = Done b w1 ->
  exists logs, w1 = World (files w) (trace w ++ logs)
    /\ program_runs logs = 0 /\ zip_opens logs = 0 /\ network_requests logs = 0.
Proof.
  unfold Converter.check_requirements, Converter.log_message, os_system,
    path_exists, emit, bind, ret. cbn [files trace].
  destruct (shell env (files w) _) as [st|]; [|discriminate].
  repeat (case_bool_decide; cbn [negb files trace]);
    intros [= <- <-]; eexists; rewrite <- !(assoc_L (++));
    (split; [reflexivity|]); repeat split; reflexivity.
Qed.

Lemma convert_apk_to_aab_run (apk_path out : string) (w : world) :
  exists b fs logs,
    Converter.convert_apk_to_aab env self apk_path out w
    = Done b (World fs (trace w ++ logs))
    /\ b = bool_decide (is_Some (files w !! apk_path)
                        /\ zip_write_error env (files w) out = None)
    /\ (b = false -> fs = files w)
    /\ (b = true -> exists apk, files w !! apk_path = Some apk
                      /\ fs = <[out := Zip (Converter.bundle_entries apk)]> (files w))
    /\ program_runs logs = 0
    /\ network_requests logs = 0
    /\ zip_opens logs = (if bool_decide (is_Some (files w !! apk_path)) then 1 else 0).
Proof.
  unfold Converter.convert_apk_to_aab, Converter.log_message, read_file,
    zip_create, emit, bind, ret. cbn [files trace].
  destruct (files w !! apk_path) as [apk|] eqn:Hapk; cbn [files trace].
  - rewrite (bool_decide_eq_true_2 (is_Some (Some apk))) by eauto.
    destruct (zip_write_error env (files w) out) as [e|] eqn:Hz; cbn [files trace].
    + eexists _, _, _. rewrite <- !(assoc_L (++)). split; [reflexivity|].
      split; [symmetry; apply bool_decide_eq_false_2; by intros [_ ?]|].
      split; [done|]. split; [done|]. repeat split; reflexivity.
    + rewrite lookup_insert_eq. cbn [files trace].
      eexists _, _, _. rewrite <- !(assoc_L (++)). split; [reflexivity|].
      split; [symmetry; apply bool_decide_eq_true_2; eauto|].
      split; [done|]. split; [intros _; by exists apk|]. repeat split; reflexivity.
  - rewrite (bool_decide_eq_false_2 (is_Some None)) by (by intros [? ?]).
    eexists _, _, _. split; [reflexivity|].
    split; [symmetry; apply bool_decide_eq_false_2; by intros [[? ?] _]|].
    split; [done|]. split; [done|]. repeat split; reflexivity.
Qed.

Lemma sign_aab_run (aab_path : string) (w : world) :
  exists r logs,
    Converter.sign_aab env self aab_path w
    = Done r (World (if Converter.truthy r
                     then alter (signed_file env) aab_path (files w)
                     else files w)
                    (trace w ++ logs))
    /\ (r = None \/ r = Some (Converter.signed_aab_path aab_path))
    /\ (r <> None ->
        exists t out err,
          program env (files w) (Converter.sign_cmd self aab_path) = Exits t 0 out err
          /\ t <= 120)
    /\ program_runs logs = 1 /\ jarsigner_runs logs = 1
    /\ zip_opens logs = 0 /\ network_requests logs = 0.
Proof.
  unfold Converter.sign_aab, Converter.log_message, emit, bind at 1 2 3.
  cbn [files trace]. unfold bind at 1, subprocess_run. cbn [files trace].
  pose proof (signed_aab_path_truthy aab_path) as Ht.
  destruct (program env (files w) (Converter.sign_cmd self aab_path))
    as [t rc out err|msg|] eqn:Hprog.
  - destruct (Nat.ltb_spec 120 t) as [Hlt|Hle].
    + unfold bind, ret. cbn [files trace]. eexists None, _.
      rewrite <- !(assoc_L (++)). split; [reflexivity|].
      split; [by left|]. split; [done|]. repeat split; reflexivity.
    + case_bool_decide as Hrc; unfold bind, ret; cbn [negb files trace].
      * subst rc. eexists (Some _), _. rewrite Ht.
        rewrite <- !(assoc_L (++)). split; [reflexivity|].
        split; [by right|]. split; [intros _; by exists t, out, err|].
        repeat split; reflexivity.
      * eexists None, _. rewrite <- !(assoc_L (++)). split; [reflexivity|].
        split; [by left|]. split; [done|]. repeat split; reflexivity.
  - unfold bind, ret. cbn [files trace]. eexists None, _.
    rewrite <- !(assoc_L (++)). split; [reflexivity|].
    split; [by left|]. split; [done|]. repeat split; reflexivity.
  - unfold bind, ret. cbn [files trace]. eexists None, _.
    rewrite <- !(assoc_L (++)). split; [reflexivity|].
    split; [by left|]. split; [done|]. repeat split; reflexivity.
Qed.

Lemma get_bundle_info_run (aab_path : string) (w : world) :
  exists b logs,
    Converter.get_bundle_info env self aab_path w
    = Done b (World (files w) (trace w ++ logs))
    /\ program_runs logs = (if bool_decide (is_Some (files w !! aab_path)) then 1 else 0)
    /\ jarsigner_runs logs = 0 /\ zip_opens logs = 0 /\ network_requests logs = 0
    /\ (files w !! aab_path = None -> b = false)
    /\ (is_Some (files w !! aab_path) ->
        b = match program env (files w) (Converter.info_cmd self aab_path) with
            | Exits t _ _ _ => bool_decide (t <= 30)
            | _ => false
            end).
Proof.
  unfold Converter.get_bundle_info, path_exists, bind at 1. cbn [files trace].
  case_bool_decide as Hex; cbn [negb].
  - unfold Converter.log_message at 1, emit at 1, bind at 1. cbn [files trace].
    unfold bind at 1, subprocess_run. cbn [files trace].
    assert (Hjar : forall t, is_jarsigner (Run (Converter.info_cmd self aab_path) t)
                             = false) by done.
    destruct (program env (files w) (Converter.info_cmd self aab_path))
      as [t rc out err|msg|] eqn:Hprog.
    + destruct (Nat.ltb_spec 30 t) as [Hlt|Hle].
      * unfold Converter.log_message, emit, bind, ret. cbn [files trace].
        eexists _, _. rewrite <- !(assoc_L (++)). split; [reflexivity|].
        split; [reflexivity|]. split; [reflexivity|]. split; [reflexivity|].
        split; [reflexivity|]. split; [intros Hn; rewrite Hn in Hex; by destruct Hex|].
        intros _. symmetry. apply bool_decide_eq_false_2. lia.
      * assert (Hfs : (if bool_decide (rc = 0%Z) then
                         World (id (files w))
                           (trace w ++ [Log (Converter.log_file self) "📋 AAB Information:"]
                            ++ [Run (Converter.info_cmd self aab_path) (Some 30)])
                       else World (files w)
                           (trace w ++ [Log (Converter.log_file self) "📋 AAB Information:"]
                            ++ [Run (Converter.info_cmd self aab_path) (Some 30)]))
                      = World (files w)
                           (trace w ++ [Log (Converter.log_file self) "📋 AAB Information:"]
                            ++ [Run (Converter.info_cmd self aab_path) (Some 30)]))
          by (by case_bool_decide).
        rewrite <- !(assoc_L (++)). rewrite Hfs.
        unfold Converter.log_message, emit, bind, ret.
        case_bool_decide; cbn [files trace]; eexists _, _;
          rewrite <- !(assoc_L (++)); (split; [reflexivity|]);
          (split; [reflexivity|]); (split; [reflexivity|]); (split; [reflexivity|]);
          (split; [reflexivity|]);
          (split; [intros Hn; rewrite Hn in Hex; by destruct Hex|]);
          intros _; symmetry; by apply bool_decide_eq_true_2.
    + unfold Converter.log_message, emit, bind, ret. cbn [files trace].
      eexists _, _. rewrite <- !(assoc_L (++)). split; [reflexivity|].
      split; [reflexivity|]. split; [reflexivity|]. split; [reflexivity|].
      split; [reflexivity|]. split; [intros Hn; rewrite Hn in Hex; by destruct Hex|].
      done.
    + unfold Converter.log_message, emit, bind, ret. cbn [files trace].
      eexists _, _. rewrite <- !(assoc_L (++)). split; [reflexivity|].
      split; [reflexivity|]. split; [reflexivity|]. split; [reflexivity|].
      split; [reflexivity|]. split; [intros Hn; rewrite Hn in Hex; by destruct Hex|].
      done.
  - unfold Converter.log_message, emit, bind, ret. cbn [files trace].
    eexists _, _. split; [reflexivity|].
    split; [reflexivity|]. split; [reflexivity|]. split; [reflexivity|].
    split; [reflexivity|]. split; [done|]. intros Hs. by destruct Hex.
Qed.

End ConverterFrames.

Lemma no_runs_no_jarsigner (l : list event) :
  program_runs l = 0 -> jarsigner_runs l = 0.
Proof.
  unfold program_runs, jarsigner_runs, count.
  induction l as [|e l IH]; [done|].
  destruct e as [| | |argv t| |]; simpl; try exact IH. discriminate.
Qed.

Section ConverterPipeline.
Context (env : environment) (self : Converter.APKtoAABConverter).

(** The stages that follow a successful construction always come back. *)
Lemma after_construction_run (out : string) (sign : bool) (w2 : world) :
  exists fs logs,
    ((if sign then
        s <- Converter.sign_aab env self out ;;
        if negb (Converter.truthy s)
        then Converter.log_message self "⚠ AAB created but signing failed"
        else ret tt
      else ret tt) ;;
     Converter.get_bundle_info env self out ;;
     Converter.log_message self rule ;;
     Converter.log_message self "✓ Conversion completed!" ;;
     Converter.log_message self ("  Output: " +:+ out) ;;
     Converter.log_message self rule ;;
     ret true) w2 = Done true (World fs (trace w2 ++ logs))
    /\ (fs = files w2 \/ sign = true /\ fs = alter (signed_file env) out (files w2))
    /\ jarsigner_runs logs = (if sign then 1 else 0)
    /\ zip_opens logs = 0 /\ network_requests logs = 0.
Proof.
  destruct sign.
  - destruct (sign_aab_run env self out w2)
      as (r & slogs & Hs & _ & _ & _ & Hj & Hz & Hn).
    unfold bind at 1 2. rewrite Hs. clear Hs.
    set (fs := if Converter.truthy r then alter (signed_file env) out (files w2)
               else files w2).
    assert (Hfs : fs = files w2 \/ true = true /\ fs = alter (signed_file env) out (files w2)).
    { unfold fs. destruct (Converter.truthy r); [by right|by left]. }
    clearbody fs.
    destruct (Converter.truthy r); cbn [negb];
      unfold Converter.log_message at 1, emit at 1, ret at 1; cbn [files trace].
    + destruct (get_bundle_info_run env self out (World fs (trace w2 ++ slogs)))
        as (b & ilogs & Hi & _ & Hij & Hiz & Hin & _).
      rewrite (bind_step _ _ _ _ _ Hi).
      unfold Converter.log_message, emit, bind, ret. cbn [files trace].
      eexists _, _. rewrite <- !(assoc_L (++)). split; [reflexivity|].
      split; [exact Hfs|]. unfold jarsigner_runs, zip_opens, network_requests in *.
      rewrite !count_app, Hj, Hz, Hn, Hij, Hiz, Hin. repeat split; reflexivity.
    + destruct (get_bundle_info_run env self out
                  (World fs ((trace w2 ++ slogs) ++
                     [Log (Converter.log_file self) "⚠ AAB created but signing failed"])))
        as (b & ilogs & Hi & _ & Hij & Hiz & Hin & _).
      rewrite (bind_step _ _ _ _ _ Hi).
      unfold Converter.log_message, emit, bind, ret. cbn [files trace].
      eexists _, _. rewrite <- !(assoc_L (++)). split; [reflexivity|].
      split; [exact Hfs|]. unfold jarsigner_runs, zip_opens, network_requests in *.
      rewrite !count_app, Hj, Hz, Hn, Hij, Hiz, Hin. repeat split; reflexivity.
  - unfold bind at 1, ret at 1.
    destruct (get_bundle_info_run env self out w2)
      as (b & ilogs & Hi & _ & Hij & Hiz & Hin & _).
    rewrite (bind_step _ _ _ _ _ Hi).
    unfold Converter.log_message, emit, bind, ret. cbn [files trace].
    eexists _, _. rewrite <- !(assoc_L (++)). split; [reflexivity|].
    split; [by left|]. unfold jarsigner_runs, zip_opens, network_requests in *.
    rewrite !count_app, Hij, Hiz, Hin. repeat split; reflexivity.
Qed.

(** Every run of [process_apk] that comes back, taken apart. *)
Lemma process_apk_run (apk : string) (sign : bool) (w w' : world) (b : bool) :
  Converter.process_apk env self apk sign w = Done b w' ->
  let out := PyPath.join (Converter.output_dir self) (Converter.output_name apk) in
  exists logs,
    trace w' = trace w ++ logs
    /\ network_requests logs = 0
    /\ zip_opens logs <= 1
    /\ (b = false /\ files w' = files w /\ jarsigner_runs logs = 0
        \/ b = true /\ jarsigner_runs logs = (if sign then 1 else 0)
           /\ exists data,
                files w !! apk = Some data
                /\ (files w' = <[out := Zip (Converter.bundle_entries data)]> (files w)
                    \/ sign = true
                       /\ files w' = <[out := signed_file env
                                                (Zip (Converter.bundle_entries data))]>
                                     (files w))).
Proof.
  intros Hrun out. rewrite process_apk_unfold in Hrun.
  apply bind_Done in Hrun as (ok & w1 & Hcheck & Hrun).
  apply check_requirements_quiet in Hcheck as (clogs & -> & Hcr & Hcz & Hcn).
  cbn [files trace] in *.
  assert (Hbanner : network_requests (banner self) = 0 /\ zip_opens (banner self) = 0
                    /\ jarsigner_runs (banner self) = 0) by done.
  destruct Hbanner as (Hbn & Hbz & Hbj).
  assert (Hcj : jarsigner_runs clogs = 0) by (by apply no_runs_no_jarsigner).
  destruct ok; cbn [negb] in Hrun.
  - cbv zeta in Hrun. fold out in Hrun.
    destruct (convert_apk_to_aab_run env self apk out
                (World (files w) ((trace w ++ banner self) ++ clogs)))
      as (built & fs & vlogs & Hv & _ & Hvf & Hvt & Hvr & Hvn & Hvz).
    rewrite (bind_step _ _ _ _ _ Hv) in Hrun. cbn [files trace] in *.
    assert (Hvj : jarsigner_runs vlogs = 0) by (by apply no_runs_no_jarsigner).
    assert (Hvz1 : zip_opens vlogs <= 1) by (rewrite Hvz; case_bool_decide; lia).
    destruct built; cbn [negb] in Hrun.
    + destruct (after_construction_run out sign
                  (World fs (((trace w ++ banner self) ++ clogs) ++ vlogs)))
        as (fs' & alogs & Ha & Hafs & Haj & Haz & Han).
      rewrite Ha in Hrun. injection Hrun as <- <-. cbn [files trace] in *.
      destruct (Hvt eq_refl) as (data & Hdata & ->).
      eexists. rewrite <- !(assoc_L (++)). split; [reflexivity|].
      unfold network_requests, zip_opens, jarsigner_runs in *.
      rewrite !count_app, Hbn, Hcn, Hvn, Han, Hbz, Hcz, Haz, Hbj, Hcj, Hvj, Haj.
      split; [reflexivity|]. split; [lia|]. right.
      split; [done|]. split; [done|]. exists data. split; [done|].
      destruct Hafs as [->|[-> ->]]; [by left|right].
      split; [done|]. by rewrite alter_insert_eq.
    + injection Hrun as <- <-. cbn [files trace] in *.
      rewrite (Hvf eq_refl).
      eexists. rewrite <- !(assoc_L (++)). split; [reflexivity|].
      unfold network_requests, zip_opens, jarsigner_runs in *.
      rewrite !count_app, Hbn, Hcn, Hvn, Hbz, Hcz, Hbj, Hcj, Hvj.
      split; [reflexivity|]. split; [lia|]. left. by repeat split.
  - injection Hrun as <- <-. cbn [files trace] in *.
    eexists. rewrite <- !(assoc_L (++)). split; [reflexivity|].
    unfold network_requests, zip_opens, jarsigner_runs in *.
    rewrite !count_app, Hbn, Hcn, Hbz, Hcz, Hbj, Hcj.
    split; [reflexivity|]. split; [lia|]. left. by repeat split.
Qed.

End ConverterPipeline.

(** ** The converter: further properties *)






(** X12. Without signing, [process_apk] never starts [jarsigner]; with
    signing it starts it once if the construction succeeded and not at
    all otherwise.  The script leaves signing out as soon as [--no-sign]
    stands anywhere on the command line. *)
Theorem signing_only_when_asked (env : environment) (script_dir : string)
    (apk prog : string) (rest : list string) (sign : bool) (w w' : world) (b : bool)
    (Hrun : Converter.process_apk env (Converter.init script_dir) apk sign w
            = Done b w') :
  jarsigner_runs (trace w')
  = jarsigner_runs (trace w) + (if sign && b then 1 else 0)
  /\ ("--no-sign" ∈ prog :: apk :: rest ->
      Converter.main env script_dir (prog :: apk :: rest) w
      = bind (Converter.process_apk env (Converter.init script_dir) apk false)
             (fun ok => if negb ok then ret 1%Z else ret 0%Z) w).
Proof.
  split.
  - destruct (process_apk_run env _ apk sign w w' b Hrun) as (logs & Ht & _ & _ & Hc).
    rewrite Ht. unfold jarsigner_runs in *. rewrite count_app.
    destruct Hc as [(-> & _ & ->)|(-> & -> & _)].
    + by rewrite andb_false_r.
    + by rewrite andb_true_r.
  - intros Hflag. unfold Converter.main.
    by rewrite (bool_decide_eq_true_2 _ Hflag).
Qed.

Lemma signing_only_when_asked_witness :
  let env := Demo.env (Some 0%Z) Demo.ok Demo.offline in
  let w := Demo.disk [("tools/bundletool.jar", Blob "jar");
                      ("certs/iot_marketplace_app.keystore", Blob "keystore");
                      ("demo app.apk", Blob "apk")] in
  exists w',
    Converter.main env "." ["apk_to_aab.py"; "demo app.apk"; "--no-sign"] w = Done 0%Z w'
    /\ jarsigner_runs (trace w') = 0.
Proof.
  intros env w.
  destruct (Converter.process_apk env (Converter.init ".") "demo app.apk" false w)
    as [b w'|w'] eqn:Hrun; [|exfalso; vm_compute in Hrun; discriminate Hrun].
  assert (b = true) as -> by (vm_compute in Hrun; congruence).
  destruct (signing_only_when_asked env "." "demo app.apk" "apk_to_aab.py" ["--no-sign"]
              false w w' true Hrun) as [Hj Hmain].
  exists w'. split; [|exact Hj].
  rewrite Hmain; [|set_solver]. by rewrite (bind_step _ _ _ _ _ Hrun).
Defined.



(** X15. Called with no path argument, the converter script prints its
    two usage lines and exits with status 1, before it looks at any file
    or starts anything. *)
Theorem converter_usage (env : environment) (script_dir : string)
    (argv : list string) (w : world)
    (Hshort : length argv < 2) :
  exists w',
    Converter.main env script_dir argv w = Done 1%Z w'
    /\ files w' = files w
    /\ external_effects (trace w') = external_effects (trace w)
    /\ trace w' = trace w
         ++ [Print "Usage: python apk_to_aab.py <path_to_apk> [--no-sign]";
             Print (String (ascii_of_nat 10)
                      "Example: python apk_to_aab.py ../iot-marketplace-app.apk")].
Proof.
  destruct argv as [|prog [|apk rest]]; [| |simpl in Hshort; lia];
    (eexists; split; [reflexivity|]; cbn [files trace];
     split; [done|]; split; [count_all|]; by rewrite <- (assoc_L (++))).
Qed.

Lemma converter_usage_witness :
  exists w',
    Converter.main (Demo.env (Some 0%Z) Demo.ok Demo.offline) "." ["apk_to_aab.py"]
      (Demo.disk []) = Done 1%Z w'
    /\ external_effects (trace w') = 0.
Proof.
  destruct (converter_usage (Demo.env (Some 0%Z) Demo.ok Demo.offline) "."
              ["apk_to_aab.py"] (Demo.disk [])) as (w' & Hrun & _ & Heff & _).
  - simpl. lia.
  - exists w'. split; [exact Hrun|]. exact Heff.
Defined.

(** ** The converter: names *)

Lemma replace_from_absent (old new s : string) :
  no_occurrence old s -> PyStr.replace_from 0 old new s = s.
Proof.
  induction s as [|c s IH]; [done|].
  intros [Hp Hrest]. cbn [PyStr.replace_from]. rewrite Hp. by rewrite IH.
Qed.

Lemma replace_aab_suffix (base : string) :
  PyStr.contains "." base = false ->
  PyStr.replace ".aab" "-signed.aab" (base +:+ ".aab") = base +:+ "-signed.aab".
Proof.
  unfold PyStr.replace. induction base as [|c base IH]; [done|].
  change (String c base +:+ ?t) with (String c (base +:+ t)).
  cbn [PyStr.contains]. intros [Hc Hrest]%orb_false_elim.
  cbn [PyStr.replace_from String.prefix].
  destruct (ascii_dec "." c) as [<-|_]; [discriminate Hc|].
  by rewrite (IH Hrest).
Qed.

Lemma contains_map_chars_other (c : ascii) (s : string) :
  c <> " "%char -> c <> "_"%char ->
  PyStr.contains c (map_chars underscore_for_space s) = PyStr.contains c s.
Proof.
  intros Hs Hu. induction s as [|a s IH]; [done|].
  cbn [map_chars PyStr.contains]. rewrite IH. f_equal.
  unfold underscore_for_space. destruct (Ascii.eqb_spec a " ") as [->|_]; [|done].
  rewrite (proj2 (Ascii.eqb_neq "_" c)) by congruence.
  by rewrite (proj2 (Ascii.eqb_neq " " c)) by congruence.
Qed.

Lemma split_parts_no_separator (sep : ascii) (s x : string) :
  x ∈ PyStr.split sep s -> PyStr.contains sep x = false.
Proof.
  revert x. induction s as [|c s IH]; intros x; cbn [PyStr.split].
  - by intros ->%list_elem_of_singleton.
  - destruct (Ascii.eqb_spec c sep) as [->|Hne].
    + intros [->|Hin]%elem_of_cons; [done|]. by apply IH.
    + pose proof (split_nonempty sep s) as Hnil.
      destruct (PyStr.split sep s) as [|h t]; [done|].
      intros [->|Hin]%elem_of_cons.
      * cbn [PyStr.contains]. rewrite IH by (by left).
        by rewrite (proj2 (Ascii.eqb_neq c sep) Hne).
      * apply IH. by right.
Qed.

Lemma contains_substring (c : ascii) (s : string) (n : nat) :
  PyStr.contains c s = false -> PyStr.contains c (String.substring 0 n s) = false.
Proof.
  revert n. induction s as [|a s IH]; intros [|n]; cbn; try done.
  intros [Ha Hs]%orb_false_elim. by rewrite Ha, IH.
Qed.

Lemma name_no_separator (p : string) : PyStr.contains "/" (PyPath.name p) = false.
Proof.
  unfold PyPath.name, PyPath.parts.
  assert (H : forall x, x ∈ filter (fun c => c <> EmptyString /\ c <> ".")
                               (PyStr.split "/" p) -> PyStr.contains "/" x = false).
  { intros x [_ Hin]%list_elem_of_filter. by apply split_parts_no_separator in Hin. }
  revert H. generalize (filter (fun c => c <> EmptyString /\ c <> ".") (PyStr.split "/" p)).
  intros l. induction l as [|x l IH]; intros H; [done|].
  destruct l as [|y l]; [apply H; by left|].
  apply IH. intros z Hz. apply H. by right.
Qed.

Lemma stem_no_separator (p : string) : PyStr.contains "/" (PyPath.stem p) = false.
Proof.
  unfold PyPath.stem. pose proof (name_no_separator p) as H.
  destruct (PyStr.rfind "." (PyPath.name p)) as [i|]; [|done].
  destruct (_ && _); [by apply contains_substring|done].
Qed.

(** X16. For an input whose stem has no dot in it, the signed name that
    [sign_aab] computes for the output archive is the stem, with its
    spaces turned into underscores, followed by [-signed.aab]. *)
Theorem signed_name_of_plain_stem (apk : string)
    (Hplain : PyStr.contains "." (PyPath.stem apk) = false) :
  Converter.signed_name (Converter.output_name apk)
  = map_chars underscore_for_space (PyPath.stem apk) +:+ "-signed.aab".
Proof.
  unfold Converter.signed_name, Converter.output_name.
  rewrite replace_space_map_chars. apply replace_aab_suffix.
  by rewrite contains_map_chars_other.
Qed.

Lemma signed_name_of_plain_stem_witness :
  Converter.signed_name (Converter.output_name "builds/demo app.apk")
  = "demo_app-signed.aab".
Proof.
  rewrite (signed_name_of_plain_stem "builds/demo app.apk"); reflexivity.
Defined.

(** X17. A file name in which [.aab] does not occur is its own signed
    name: for such an archive the name [sign_aab] reports as signed
    output is the name of the input. *)
Theorem signed_name_without_suffix (name : string)
    (Habsent : no_occurrence ".aab" name) :
  Converter.signed_name name = name.
Proof. unfold Converter.signed_name, PyStr.replace. by apply replace_from_absent. Qed.

Lemma signed_name_without_suffix_witness :
  Converter.signed_name "bundle.zip" = "bundle.zip".
Proof.
  apply (signed_name_without_suffix "bundle.zip"). vm_compute. tauto.
Defined.

(** X18. The output name never contains a path separator or a space,
    whatever directories the input path goes through: the archive is
    always written directly inside the output directory. *)
Theorem output_name_is_plain (apk : string) :
  PyStr.contains "/" (Converter.output_name apk) = false
  /\ PyStr.contains " " (Converter.output_name apk) = false
  /\ PyPath.name (Converter.output_name apk) = Converter.output_name apk
  /\ Converter.output_name apk <> EmptyString.
Proof.
  assert (Hsep : PyStr.contains "/" (Converter.output_name apk) = false).
  { unfold Converter.output_name.
    rewrite contains_app, replace_space_map_chars, contains_map_chars_other by done.
    by rewrite stem_no_separator. }
  assert (Hlen : 4 <= String.length (Converter.output_name apk)).
  { unfold Converter.output_name.
    generalize (PyStr.replace " " "_" (PyPath.stem apk)). intros s.
    induction s as [|c s IH]; [vm_compute; lia|].
    change (String c s +:+ ?t) with (String c (s +:+ t)). cbn [String.length]. lia. }
  split; [exact Hsep|]. split; [apply output_name_no_space|]. split.
  - unfold PyPath.name, PyPath.parts. rewrite (split_no_separator _ _ Hsep).
    rewrite filter_cons, filter_nil. case_decide as Hd; [done|].
    exfalso. apply Hd. split; intros Heq; rewrite Heq in Hlen; cbn in Hlen; lia.
  - intros Heq. rewrite Heq in Hlen. cbn in Hlen. lia.
Qed.

(** ** The analyzer: further properties *)

(** X19. The analyzer is read-only and always comes back: it writes no
    file, starts no program and makes no request.  It returns success
    exactly when the path holds a zip archive, and the script's exit
    status is 0 in that case and 1 otherwise. *)
Theorem analyzer_read_only (env : environment) (prog path : string)
    (rest : list string) (w : world) :
  exists b w',
    Analyzer.analyze_aab env path w = Done b w'
    /\ Analyzer.main env (prog :: path :: rest) w = Done (if b then 0%Z else 1%Z) w'
    /\ files w' = files w
    /\ (b = true <-> exists es, files w !! path = Some (Zip es))
    /\ program_runs (trace w') = program_runs (trace w)
    /\ network_requests (trace w') = network_requests (trace w)
    /\ zip_opens (trace w') <= zip_opens (trace w) + 1.
Proof.
  assert (Hquiet : forall l, Forall (fun e => exists s, e = Print s) l ->
            program_runs l = 0 /\ network_requests l = 0 /\ zip_opens l = 0).
  { intros l Hl. unfold program_runs, network_requests, zip_opens, count.
    induction Hl as [|e l [s ->] _ IH]; done. }
  assert (Hdetails : forall d, Forall (fun e => exists s, e = Print s)
                                 (Analyzer.file_details env path d))
    by (intros d; repeat constructor; eauto).
  assert (Hreport : forall mods, Forall (fun e => exists s, e = Print s)
                                   (Analyzer.module_report mods)).
  { intros mods. unfold Analyzer.module_report.
    apply Forall_concat, Forall_fmap, Forall_true. intros m.
    unfold Analyzer.module_lines. constructor; [eauto|].
    apply Forall_app. split.
    - apply Forall_fmap, Forall_true. intros f. unfold Analyzer.example_line. eauto.
    - destruct (Nat.ltb _ _); repeat constructor. unfold Analyzer.more_line. eauto. }
  destruct (files w !! path) as [[bytes|es]|] eqn:Hfile.
  - pose proof (analyze_aab_blob env path bytes w Hfile) as Hrun.
    eexists _, _. split; [exact Hrun|].
    split; [unfold Analyzer.main; by rewrite (bind_step _ _ _ _ _ Hrun)|].
    cbn [files trace]. split; [done|].
    split; [split; [done|by intros [es [=]]]|].
    destruct (Hquiet _ (Hdetails (Blob bytes))) as (H1 & H2 & H3).
    unfold program_runs, network_requests, zip_opens in *.
    rewrite !count_app, H1, H2, H3. unfold count. simpl. lia.
  - pose proof (analyze_aab_zip env path es w Hfile) as Hrun.
    eexists _, _. split; [exact Hrun|].
    split; [unfold Analyzer.main; by rewrite (bind_step _ _ _ _ _ Hrun)|].
    cbn [files trace]. split; [done|].
    split; [split; [by exists es|done]|].
    destruct (Hquiet _ (Hdetails (Zip es))) as (H1 & H2 & H3).
    destruct (Hquiet _ (Hreport (Analyzer.group_by_module (map fst es))))
      as (H4 & H5 & H6).
    change (?a :: ?b :: ?l ++ ?r) with ([a; b] ++ l ++ r).
    unfold program_runs, network_requests, zip_opens in *.
    rewrite !count_app, H1, H2, H3, H4, H5, H6. unfold count. simpl. lia.
  - pose proof (analyze_aab_missing env path w Hfile) as Hrun.
    eexists _, _. split; [exact Hrun|].
    split; [unfold Analyzer.main; by rewrite (bind_step _ _ _ _ _ Hrun)|].
    cbn [files trace]. split; [done|].
    split; [split; [done|by intros [es [=]]]|]. count_all.
Qed.

(** [module_of] cuts at the first separator. *)
Lemma split_first_segment (m rest : string) :
  PyStr.contains "/" m = false ->
  exists tl, PyStr.split "/" (m +:+ String "/" rest) = m :: tl.
Proof.
  induction m as [|c m IH].
  - intros _. cbn [String.append PyStr.split]. eauto.
  - change (String c m +:+ ?t) with (String c (m +:+ t)).
    cbn [PyStr.contains PyStr.split]. intros [Hc Hm]%orb_false_elim.
    rewrite Hc. destruct (IH Hm) as [tl ->]. eauto.
Qed.

(** X20. The module of an entry is what stands before its first [/]: an
    entry [m/rest], where [m] has no separator, belongs to module [m],
    however many separators follow in [rest].  An entry that starts with
    [/] belongs to the module with the empty name. *)
Theorem module_of_first_segment (m rest : string)
    (Hm : PyStr.contains "/" m = false) :
  Analyzer.module_of (m +:+ String "/" rest) = m
  /\ Analyzer.module_of (String "/" rest) = EmptyString.
Proof.
  split.
  - unfold Analyzer.module_of. by destruct (split_first_segment m rest Hm) as [tl ->].
  - reflexivity.
Qed.

Lemma module_of_first_segment_witness :
  Analyzer.module_of "base/lib/arm64-v8a/libapp.so" = "base".
Proof.
  exact (proj1 (module_of_first_segment "base" "lib/arm64-v8a/libapp.so" eq_refl)).
Defined.

(** ** The analyzer: grouping is a partition, the listing is sorted *)

Lemma keys_dict_append (d : Analyzer.dict) (k f : string) :
  Analyzer.keys (Analyzer.dict_append d k f)
  = if decide (k ∈ Analyzer.keys d) then Analyzer.keys d else Analyzer.keys d ++ [k].
Proof.
  unfold Analyzer.keys. induction d as [|[k' v] d IH]; [done|].
  cbn [Analyzer.dict_append map fst].
  destruct (String.eqb_spec k' k) as [->|Hne].
  - rewrite decide_True by (by left). done.
  - cbn [map fst]. rewrite IH. case_decide as Hin.
    + rewrite decide_True by (by right). done.
    + rewrite decide_False; [done|]. intros [?|?]%elem_of_cons; congruence.
Qed.

Lemma values_dict_append (d : Analyzer.dict) (k f : string) :
  sum_list (map (fun kv => length kv.2) (Analyzer.dict_append d k f))
  = S (sum_list (map (fun kv => length kv.2) d)).
Proof.
  induction d as [|[k' v] d IH]; [done|].
  cbn [Analyzer.dict_append]. destruct (String.eqb k' k).
  - cbn. rewrite length_app. cbn. lia.
  - cbn. cbn in IH. rewrite IH. lia.
Qed.

Lemma group_fold_partition (files : list string) (acc : Analyzer.dict) :
  NoDup (Analyzer.keys acc) ->
  NoDup (Analyzer.keys (fold_left Analyzer.group_step files acc))
  /\ sum_list (map (fun kv => length kv.2) (fold_left Analyzer.group_step files acc))
     = sum_list (map (fun kv => length kv.2) acc) + length files.
Proof.
  revert acc. induction files as [|f files IH]; intros acc Hnd; cbn [fold_left].
  - split; [done|]. cbn. lia.
  - rewrite group_step_append.
    destruct (IH (Analyzer.dict_append acc (Analyzer.module_of f) f)) as [H1 H2].
    + rewrite keys_dict_append. case_decide as Hin; [done|].
      apply NoDup_app. split; [done|]. split; [|apply NoDup_singleton].
      intros x Hx ->%list_elem_of_singleton. done.
    + split; [exact H1|]. rewrite H2, values_dict_append. cbn. lia.
Qed.

Lemma dict_get_keys (d : Analyzer.dict) :
  NoDup (Analyzer.keys d) ->
  map (Analyzer.dict_get d) (Analyzer.keys d) = map snd d.
Proof.
  unfold Analyzer.keys. induction d as [|[k v] d IH]; [done|].
  cbn [map fst snd]. intros [Hk Hd]%NoDup_cons.
  cbn [Analyzer.dict_get]. rewrite String.eqb_refl. f_equal.
  rewrite <- (IH Hd). apply map_ext_in. intros k' Hin.
  destruct (String.eqb_spec k k') as [->|_]; [|done].
  exfalso. apply Hk. by apply list_elem_of_In.
Qed.

(** X21. Grouping is a partition of the archive: no module name is kept
    twice, every entry is filed under the module of its first segment,
    and the modules' lists together have as many entries as the archive. *)
Theorem grouping_is_partition (names : list string) :
  let modules := Analyzer.group_by_module names in
  NoDup (Analyzer.keys modules)
  /\ sum_list (map (fun m => length (Analyzer.dict_get modules m))
                   (Analyzer.keys modules)) = length names
  /\ forall f, f ∈ names ->
       Analyzer.module_of f ∈ Analyzer.keys modules
       /\ f ∈ Analyzer.dict_get modules (Analyzer.module_of f)
       /\ forall m, f ∈ Analyzer.dict_get modules m -> m = Analyzer.module_of f.
Proof.
  intros modules.
  destruct (group_fold_partition names [] NoDup_nil_2) as [Hnd Hsum].
  fold (Analyzer.group_by_module names) in Hnd, Hsum. fold modules in Hnd, Hsum.
  split; [exact Hnd|]. split.
  - rewrite <- (map_map (Analyzer.dict_get modules) length).
    rewrite (dict_get_keys modules Hnd), map_map. exact Hsum.
  - intros f Hf. split; [|split].
    + apply group_by_module_keys. by exists f.
    + unfold modules. rewrite group_by_module_get.
      apply list_elem_of_filter. by split.
    + intros m. unfold modules. rewrite group_by_module_get.
      by intros [-> _]%list_elem_of_filter.
Qed.

Lemma leb_total (s t : string) : PyStr.leb s t = false -> PyStr.leb t s = true.
Proof.
  revert t. induction s as [|a s IH]; intros [|b t]; cbn [PyStr.leb]; try done.
  destruct (Nat.ltb_spec (nat_of_ascii a) (nat_of_ascii b)); [done|].
  destruct (Nat.ltb_spec (nat_of_ascii b) (nat_of_ascii a)); [done|].
  apply IH.
Qed.

Lemma leb_trans (s t u : string) :
  PyStr.leb s t = true -> PyStr.leb t u = true -> PyStr.leb s u = true.
Proof.
  revert t u. induction s as [|a s IH]; intros [|b t] [|c u]; cbn [PyStr.leb];
    try done.
  destruct (Nat.ltb_spec (nat_of_ascii a) (nat_of_ascii b));
    destruct (Nat.ltb_spec (nat_of_ascii b) (nat_of_ascii a));
    destruct (Nat.ltb_spec (nat_of_ascii b) (nat_of_ascii c));
    destruct (Nat.ltb_spec (nat_of_ascii c) (nat_of_ascii b));
    destruct (Nat.ltb_spec (nat_of_ascii a) (nat_of_ascii c));
    destruct (Nat.ltb_spec (nat_of_ascii c) (nat_of_ascii a));
    try done; try lia.
  apply IH.
Qed.

Lemma insert_sorted_perm (x : string) (l : list string) :
  PyStr.insert_sorted x l ≡ₚ x :: l.
Proof.
  induction l as [|y l IH]; [done|]. cbn [PyStr.insert_sorted].
  destruct (PyStr.leb x y); [done|]. rewrite IH. apply Permutation_swap.
Qed.

Lemma sorted_perm (l : list string) : PyStr.sorted l ≡ₚ l.
Proof.
  induction l as [|x l IH]; [done|]. cbn [PyStr.sorted].
  by rewrite insert_sorted_perm, IH.
Qed.

Lemma insert_sorted_Sorted (x : string) (l : list string) :
  Sorted (fun a b => PyStr.leb a b = true) l ->
  Sorted (fun a b => PyStr.leb a b = true) (PyStr.insert_sorted x l).
Proof.
  induction 1 as [|y l Hl IH Hhd]; cbn [PyStr.insert_sorted].
  - repeat constructor.
  - destruct (PyStr.leb x y) eqn:Hxy.
    + constructor; [by constructor|]. by constructor.
    + constructor; [exact IH|].
      destruct l as [|z l]; cbn [PyStr.insert_sorted].
      * constructor. by apply leb_total.
      * destruct (PyStr.leb x z); constructor; [by apply leb_total|].
        by inversion Hhd.
Qed.

Lemma sorted_Sorted (l : list string) :
  Sorted (fun a b => PyStr.leb a b = true) (PyStr.sorted l).
Proof.
  induction l as [|x l IH]; [constructor|]. by apply insert_sorted_Sorted.
Qed.

(** X22. The analyzer lists each module once and in ascending order of
    name: the names it prints are exactly the first segments of the
    entries, without repetition, each no greater than the next. *)
Theorem modules_listed_once_in_order (names : list string) :
  NoDup (printed_modules names)
  /\ Sorted (fun a b => PyStr.leb a b = true) (printed_modules names)
  /\ forall m, m ∈ printed_modules names
               <-> exists f, f ∈ names /\ Analyzer.module_of f = m.
Proof.
  unfold printed_modules. split; [|split].
  - destruct (group_fold_partition names [] NoDup_nil_2) as [Hnd _].
    by rewrite sorted_perm.
  - apply sorted_Sorted.
  - intros m. rewrite sorted_perm. apply group_by_module_keys.
Qed.

(** X23. The entries shown for a module are its smallest: they are
    entries of the module, in ascending order, and every entry of the
    module that is left out is at least as great as each one shown. *)
Theorem examples_are_smallest (names : list string) (m : string) :
  let members := Analyzer.dict_get (Analyzer.group_by_module names) m in
  let shown := take 5 (PyStr.sorted members) in
  let hidden := drop 5 (PyStr.sorted members) in
  shown ++ hidden ≡ₚ members
  /\ Sorted (fun a b => PyStr.leb a b = true) shown
  /\ (forall f, f ∈ shown -> f ∈ names /\ Analyzer.module_of f = m)
  /\ forall f g, f ∈ shown -> g ∈ hidden -> PyStr.leb f g = true.
Proof.
  intros members shown hidden.
  assert (Hsplit : shown ++ hidden = PyStr.sorted members) by apply take_drop.
  assert (Hstrong : StronglySorted (fun a b => PyStr.leb a b = true)
                      (shown ++ hidden)).
  { rewrite Hsplit. apply Sorted_StronglySorted; [|apply sorted_Sorted].
    intros a b c. apply leb_trans. }
  split; [rewrite Hsplit; apply sorted_perm|]. split; [|split].
  - apply StronglySorted_Sorted. by apply StronglySorted_app_1_l in Hstrong.
  - intros f Hf.
    assert (Hin : f ∈ members).
    { rewrite <- (sorted_perm members), <- Hsplit. apply elem_of_app. by left. }
    unfold members in Hin. rewrite group_by_module_get in Hin.
    apply list_elem_of_filter in Hin as [Hm Hn]. by split.
  - intros f g Hf Hg.
    exact (StronglySorted_app_1_elem_of _ shown hidden f g Hstrong Hf Hg).
Qed.
